(** * Gmail-Agent: access gate, session state machine and draft/send flow

    A shallow embedding of the two Streamlit scripts of the repository,
    [app.py] (the basic variant, module [Basic]) and [app_demo.py] (the
    approval variant, module [Demo]), and the properties of their
    authorization and state-transition policy.

    Conventions of the embedding.
    - A Python [str] is a [string]; its characters are the code points
      below 256, on which [str.lower] and [str.strip] are modelled exactly.
    - [None]-able session fields are [option]s; Python truthiness is written
      out ([truthy_str], [truthy_list], ...).
    - The token directory is a finite map from path names to file contents.
    - The external collaborators (OAuth flow, Gmail API, language model) are
      an environment giving the outcome of each call; every call that is
      issued is appended to a log.
    - The email library's [as_bytes()] raises on header values it refuses
      (an embedded header, a line break before text; which ones exactly
      depends on the library and its version). Its answer for each message
      is part of the environment too; it is no remote call and is not
      logged.
    - A script run is a computation in a state-and-control monad: it may
      finish, halt on [st.stop()], or end on an uncaught exception.
    - Of the page, the buttons drawn and the messages shown are recorded;
      a button answers true in the run that its click started. *)

From Stdlib Require Import NArith Ascii.
From stdpp Require Import base gmap strings list.

Local Open Scope N_scope.

(** ** Python string operations *)

Module Py.

(** [str.lower] on one code point below 256: the ASCII capitals and the
    Latin-1 capitals U+00C0..U+00DE (U+00D7, the multiplication sign, is
    not a letter) move up by 32. *)
Definition lower_char (c : ascii) : ascii :=
  let n := N_of_ascii c in
  if ((65 <=? n) && (n <=? 90))
     || ((192 <=? n) && (n <=? 222) && negb (n =? 215))
  then ascii_of_N (n + 32)
  else c.

Fixpoint lower (s : string) : string :=
  match s with
  | EmptyString => EmptyString
  | String c s' => String (lower_char c) (lower s')
  end.

(** [str.isspace] on one code point below 256. *)
Definition isspace (c : ascii) : bool :=
  let n := N_of_ascii c in
  ((9 <=? n) && (n <=? 13)) || ((28 <=? n) && (n <=? 32))
  || (n =? 133) || (n =? 160).

Fixpoint lstrip (s : string) : string :=
  match s with
  | EmptyString => EmptyString
  | String c s' => if isspace c then lstrip s' else s
  end.

Fixpoint rstrip (s : string) : string :=
  match s with
  | EmptyString => EmptyString
  | String c s' =>
      match rstrip s' with
      | EmptyString => if isspace c then EmptyString else String c EmptyString
      | r => String c r
      end
  end.

(** [s.strip()] *)
Definition strip (s : string) : string := rstrip (lstrip s).

(** [s.split(sep)] for a one-character separator: the segments between
    the occurrences of [sep], empty ones included; never the empty list. *)
Fixpoint split (sep : ascii) (s : string) : list string :=
  match s with
  | EmptyString => [EmptyString]
  | String c s' =>
      if Ascii.eqb c sep then EmptyString :: split sep s'
      else match split sep s' with
           | seg :: segs => String c seg :: segs
           | [] => [String c EmptyString]
           end
  end.

(** [sep.join(l)] *)
Fixpoint join (sep : string) (l : list string) : string :=
  match l with
  | [] => EmptyString
  | [x] => x
  | x :: l' => x +:+ sep +:+ join sep l'
  end.

(** [s.replace(old, new)] for a one-character [old]. *)
Fixpoint replace (old : ascii) (new : string) (s : string) : string :=
  match s with
  | EmptyString => EmptyString
  | String c s' =>
      if Ascii.eqb c old then new +:+ replace old new s'
      else String c (replace old new s')
  end.

(** Truthiness of a [str], of a list, and of a [None]-able value. *)
Definition truthy_str (s : string) : bool :=
  match s with EmptyString => false | _ => true end.

Definition truthy_list {A} (l : list A) : bool :=
  match l with [] => false | _ => true end.

Definition truthy_opt {A} (t : A → bool) (o : option A) : bool :=
  match o with None => false | Some a => t a end.

(** [l[-1]] on a list; the default stands for the [IndexError] of an empty
    list, which [split] never returns ([split_last_total] below). *)
Definition index_last (l : list string) : string := List.last l EmptyString.

(** A service handle is an object without [__bool__] or [__len__]: truthy. *)
Definition truthy_obj {A} (_ : A) : bool := true.

(** An f-string hole [{x}] for a [None]-able string. *)
Definition fmt (o : option string) : string :=
  match o with None => "None" | Some s => s end.

End Py.

(** ** The access gate *)

(** [ALLOWED_DOMAINS = {"iands.com", "kogo.ai"}], the same in both scripts. *)
Definition ALLOWED_DOMAINS : gset string := {[ "iands.com"; "kogo.ai" ]}.

Definition at_sign : ascii := "@"%char.


Definition comma : ascii := ","%char.

Definition newline : ascii := "010"%char.

(** ** Collaborators, the page and the script monad *)

(** Token material, as [creds.to_json()] serializes it. *)
Definition Creds : Type := string.

(** The handle that [build("gmail", "v1", credentials=creds)] returns. *)
Record Service : Type := { credentials : Creds }.

(** The exceptions the scripts can meet; [CollaboratorError] is whatever an
    external call or the email library raises. *)
Inductive Exn : Type :=
| PermissionError (msg : string)
| TypeError (msg : string)
| AttributeError (msg : string)
| CollaboratorError (msg : string).

(** [str(e)] *)
Definition str_of (e : Exn) : string :=
  match e with
  | PermissionError msg | TypeError msg | AttributeError msg
  | CollaboratorError msg => msg
  end.

(** The [MIMEText] message a request carries (its base64 form is not
    modelled). *)
Record Message : Type := {
  msg_subtype : string;
  msg_body : string;
  msg_to : string;
  msg_subject : option string;
  msg_cc : option string
}.

(** One call to a collaborator. *)
Inductive Call : Type :=
| OAuthFlow
| GetProfile
| LlmInvoke (prompt : string)
| DraftsCreate (service : Service) (m : Message)
| MessagesSend (service : Service) (m : Message)
| DraftsDelete (service : Service) (id : string).

(** What the Gmail side answers in one run: an exception ([inl]) or a
    value ([inr]). [drafts_create] answers the draft's ["id"] entry, if any. *)
Record Gmail : Type := {
  run_local_server : Exn + Creds;
  get_profile : Exn + string;
  drafts_create : Exn + option string;
  messages_send : Exn + unit;
  drafts_delete : Exn + unit
}.

Inductive Button : Type :=
| Authenticate | SwitchAccount | Logout | Generate | Cancel | SendEmail.

Global Instance Button_eq_dec : EqDecision Button.
Proof. solve_decision. Defined.

(** What a run puts on the page. *)
Inductive Ui : Type :=
| Shown (b : Button)
| UiSuccess (text : string)
| UiError (text : string)
| UiInfo (text : string)
| UiWarning (text : string).

(** The state a run works on: [st.session_state], the token directory, the
    calls issued (oldest first) and the page (top first). *)
Record Run (S : Type) : Type := mkRun {
  session : S;
  files : gmap string string;
  calls : list Call;
  ui : list Ui
}.
Arguments mkRun {S} _ _ _ _.
Arguments session {S} _.
Arguments files {S} _.
Arguments calls {S} _.
Arguments ui {S} _.

(** How a computation ends: with a value, on a raised exception, or on
    [st.stop()]. *)
Inductive Outcome (A : Type) : Type :=
| Value (a : A)
| Raised (e : Exn)
| Stopped.
Arguments Value {A} a.
Arguments Raised {A} e.
Arguments Stopped {A}.

Definition Script (S A : Type) : Type := Run S → Run S * Outcome A.

Global Instance Script_ret {S} : MRet (Script S) := λ A a r, (r, Value a).

Global Instance Script_bind {S} : MBind (Script S) := λ A B k m r,
  match m r with
  | (r', Value a) => k a r'
  | (r', Raised e) => (r', Raised e)
  | (r', Stopped) => (r', Stopped)
  end.

Section Primitives.
Context {S : Type}.

Definition session_state : Script S S := λ r, (r, Value (session r)).

Definition assign (f : S → S) : Script S unit := λ r,
  (mkRun (f (session r)) (files r) (calls r) (ui r), Value tt).

Definition show (u : Ui) : Script S unit := λ r,
  (mkRun (session r) (files r) (calls r) (ui r ++ [u]), Value tt).

(** [st.button(label)]: draws the button; true in the run its click started. *)
Definition st_button (clicked : option Button) (b : Button) : Script S bool :=
  show (Shown b);; mret (bool_decide (clicked = Some b)).

Definition st_stop {A} : Script S A := λ r, (r, Stopped).

Definition raise {A} (e : Exn) : Script S A := λ r, (r, Raised e).

(** [try: body / except Exception as e: handler(e)]; [st.stop()] is no
    [Exception] and passes through. *)
Definition try_except {A} (body : Script S A) (handler : Exn → Script S A)
  : Script S A := λ r,
  match body r with
  | (r', Raised e) => handler e r'
  | res => res
  end.

(** A call to a collaborator: logged, then its answer. *)
Definition collaborator {A} (c : Call) (answer : Exn + A) : Script S A := λ r,
  (mkRun (session r) (files r) (calls r ++ [c]) (ui r),
   match answer with inl e => Raised e | inr a => Value a end).

(** The answer of a library function that may raise; nothing is logged. *)
Definition library {A} (answer : Exn + A) : Script S A := λ r,
  (r, match answer with inl e => Raised e | inr a => Value a end).

(** [os.path.exists], [os.remove], and [open(path, "w").write(text)]. *)
Definition path_exists (path : string) : Script S bool := λ r,
  (r, Value (bool_decide (is_Some (files r !! path)))).

Definition os_remove (path : string) : Script S unit := λ r,
  (mkRun (session r) (delete path (files r)) (calls r) (ui r), Value tt).

Definition write_file (path text : string) : Script S unit := λ r,
  (mkRun (session r) (<[path := text]> (files r)) (calls r) (ui r), Value tt).

(** [if c: body], with nothing to do otherwise. *)
Definition when (c : bool) (body : Script S unit) : Script S unit :=
  if c then body else mret tt.

(** [Credentials.from_authorized_user_file(path, scopes)]: the credentials
    the file's text stands for. Credentials are identified with their JSON
    text throughout, so the text itself is the answer; a missing file is the
    error of [open]. *)
Definition from_authorized_user_file (path : string) : Script S Creds := λ r,
  (r, match files r !! path with
      | Some text => Value text
      | None => Raised (CollaboratorError "FileNotFoundError")
      end).

(** [sep.join(l)] where [l] may be [None]. *)
Definition join_checked (sep : string) (l : option (list string))
  : Script S string :=
  match l with
  | Some l => mret (Py.join sep l)
  | None => raise (TypeError "can only join an iterable")
  end.

(** [service.users()] where [service] may be [None]. *)
Definition users (service : option Service) : Script S Service :=
  match service with
  | Some svc => mret svc
  | None => raise (AttributeError "'NoneType' object has no attribute 'users'")
  end.

End Primitives.

(** A run starts on an empty page; the call log of a run starts empty. *)
Definition fresh {S} (s : S) (fs : gmap string string) : Run S :=
  mkRun s fs [] [].

(** ** The basic variant: [app.py] *)

Module Basic.

(** [st.session_state] (lines 97-101). *)
Record Session : Type := {
  user_service : option Service;
  user_email : option string
}.

Definition initial : Session := {| user_service := None; user_email := None |}.

Definition set_user_service (v : option Service) (s : Session) : Session :=
  {| user_service := v; user_email := user_email s |}.

Definition set_user_email (v : option string) (s : Session) : Session :=
  {| user_service := user_service s; user_email := v |}.

(** The collaborators' answers in one run, and what [message.as_bytes()]
    answers for each message: [inl] the exception it raises, [inr] when it
    serializes. *)
Record Env : Type := {
  gmail : Gmail;
  llm : Exn + string;
  as_bytes : Message → Exn + unit
}.

(** The widgets' values in one run. *)
Record Inputs : Type := {
  clicked : option Button;
  user_prompt : string;
  to_email : string;
  subject : string
}.

(** Lines 47-49. *)
Definition is_allowed_user (email : string) : bool :=
  let domain := Py.lower (Py.index_last (Py.split at_sign email)) in
  bool_decide (domain ∈ ALLOWED_DOMAINS).

Definition token_path (user_email : string) : string :=
  "tokens/token_" +:+ user_email +:+ ".json".

(** Lines 52-73. *)
Definition get_gmail_service (env : Env) : Script Session (Service * string) :=
  creds ← collaborator OAuthFlow (run_local_server (gmail env));
  let service := {| credentials := creds |} in
  user_email ← collaborator GetProfile (get_profile (gmail env));
  when (negb (is_allowed_user user_email))
    (raise (PermissionError
              ("Access denied for " +:+ user_email +:+ ". "
               +:+ "Only iands.com and kogo.ai users are allowed.")));;
  let token_file := token_path user_email in
  write_file token_file creds;;
  mret (service, user_email).

(** Lines 75-81. No line of the script calls it. *)
Definition load_gmail_service (user_email : string)
  : Script Session (option Service) :=
  let token_file := token_path user_email in
  path_exists token_file ≫= λ present : bool,
  if present then
    creds ← from_authorized_user_file token_file;
    let service := {| credentials := creds |} in
    mret (Some service)
  else mret None.

(** The one-node workflow (lines 34-44): the prompt goes to the model as
    it is, and the answer's content comes back. *)
Definition workflow_invoke (env : Env) (gmail_prompt : string)
  : Script Session string :=
  collaborator (LlmInvoke gmail_prompt) (llm env).

(** Lines 84-94; answers the draft's id, if any. The message is serialized
    (line 89) before the request is built. *)
Definition create_gmail_draft (env : Env) (service : option Service)
    (to subject body : string) : Script Session (option string) :=
  let message := {| msg_subtype := "plain"; msg_body := body; msg_to := to;
                    msg_subject := Some subject; msg_cc := None |} in
  library (as_bytes env message);;
  svc ← users service;
  collaborator (DraftsCreate svc message) (drafts_create (gmail env)).

(** Lines 106-134: the account section of the page. *)
Definition auth_ui (inp : Inputs) (env : Env) : Script Session unit :=
  s ← session_state;
  match user_service s with
  | None =>
      b ← st_button (clicked inp) Authenticate;
      when b
        (try_except
           (r ← get_gmail_service env;
            assign (set_user_service (Some r.1));;
            assign (set_user_email (Some r.2));;
            show (UiSuccess ("Authenticated as " +:+ r.2)))
           (λ e, show (UiError ("Authentication failed: " +:+ str_of e))))
  | Some _ =>
      show (UiInfo ("Logged in as: " +:+ Py.fmt (user_email s)));;
      b1 ← st_button (clicked inp) SwitchAccount;
      when b1
        (assign (set_user_service None);;
         assign (set_user_email None);;
         st_stop);;
      b2 ← st_button (clicked inp) Logout;
      when b2
        (s ← session_state;
         let token_file := token_path (Py.fmt (user_email s)) in
         present ← path_exists token_file;
         when present (os_remove token_file);;
         assign (set_user_service None);;
         assign (set_user_email None);;
         show (UiSuccess "Logged out successfully");;
         st_stop)
  end.

(** Lines 136-139: the hard block. [x and not f(x)] does not call [f] on a
    falsy [x]. *)
Definition hard_block : Script Session unit :=
  s ← session_state;
  when (match user_email s with
        | Some e => Py.truthy_str e && negb (is_allowed_user e)
        | None => false
        end)
    (show (UiError "You are not authorized to use this application.");;
     st_stop).

(** Lines 141-182: the generation section. *)
Definition generation_ui (inp : Inputs) (env : Env) : Script Session unit :=
  s ← session_state;
  when (Py.truthy_opt Py.truthy_obj (user_service s))
    (b ← st_button (clicked inp) Generate;
     when b
       (if negb (Py.truthy_str (Py.strip (user_prompt inp))) then
          show (UiWarning "Please enter a prompt")
        else
          try_except
            (email_body ← workflow_invoke env (user_prompt inp);
             s ← session_state;
             create_gmail_draft env (user_service s) (to_email inp)
               (subject inp) email_body;;
             show (UiSuccess "Gmail draft created successfully!"))
            (λ e, show (UiError ("Error: " +:+ str_of e))))).

(** The whole script, top to bottom. *)
Definition script (inp : Inputs) (env : Env) : Script Session unit :=
  auth_ui inp env;; hard_block;; generation_ui inp env.

End Basic.

(** ** The approval variant: [app_demo.py] *)

Module Demo.

(** Lines 31-33: what the structured model answers. *)
Record StructuredEmail : Type := {
  gmail_content : string;
  gmail_subject : string
}.

(** [st.session_state] (lines 131-137). *)
Record Session : Type := {
  user_service : option Service;
  user_email : option string;
  generated_email : option string;
  generated_subject : option string;
  generated_to : option (list string);
  generated_cc : option (list string);
  draft_id : option string
}.

Definition initial : Session :=
  {| user_service := None; user_email := None; generated_email := None;
     generated_subject := None; generated_to := None; generated_cc := None;
     draft_id := None |}.

Definition set_user_service (v : option Service) (s : Session) : Session :=
  {| user_service := v; user_email := user_email s;
     generated_email := generated_email s;
     generated_subject := generated_subject s;
     generated_to := generated_to s; generated_cc := generated_cc s;
     draft_id := draft_id s |}.

Definition set_user_email (v : option string) (s : Session) : Session :=
  {| user_service := user_service s; user_email := v;
     generated_email := generated_email s;
     generated_subject := generated_subject s;
     generated_to := generated_to s; generated_cc := generated_cc s;
     draft_id := draft_id s |}.

Definition set_generated_email (v : option string) (s : Session) : Session :=
  {| user_service := user_service s; user_email := user_email s;
     generated_email := v;
     generated_subject := generated_subject s;
     generated_to := generated_to s; generated_cc := generated_cc s;
     draft_id := draft_id s |}.

Definition set_generated_subject (v : option string) (s : Session) : Session :=
  {| user_service := user_service s; user_email := user_email s;
     generated_email := generated_email s;
     generated_subject := v;
     generated_to := generated_to s; generated_cc := generated_cc s;
     draft_id := draft_id s |}.

Definition set_generated_to (v : option (list string)) (s : Session)
  : Session :=
  {| user_service := user_service s; user_email := user_email s;
     generated_email := generated_email s;
     generated_subject := generated_subject s;
     generated_to := v; generated_cc := generated_cc s;
     draft_id := draft_id s |}.

Definition set_generated_cc (v : option (list string)) (s : Session)
  : Session :=
  {| user_service := user_service s; user_email := user_email s;
     generated_email := generated_email s;
     generated_subject := generated_subject s;
     generated_to := generated_to s; generated_cc := v;
     draft_id := draft_id s |}.

Definition set_draft_id (v : option string) (s : Session) : Session :=
  {| user_service := user_service s; user_email := user_email s;
     generated_email := generated_email s;
     generated_subject := generated_subject s;
     generated_to := generated_to s; generated_cc := generated_cc s;
     draft_id := v |}.

(** The collaborators' answers in one run, and what [msg.as_bytes()]
    answers for each message: [inl] the exception it raises, [inr] when it
    serializes. *)
Record Env : Type := {
  gmail : Gmail;
  llm : Exn + StructuredEmail;
  as_bytes : Message → Exn + unit
}.

(** The widgets' values in one run. *)
Record Inputs : Type := {
  clicked : option Button;
  user_prompt : string;
  to_email : string;
  cc_email : string
}.

(** Lines 74-75. *)
Definition is_allowed_user (email : string) : bool :=
  bool_decide
    (Py.lower (Py.index_last (Py.split at_sign email)) ∈ ALLOWED_DOMAINS).

(** Lines 77-79. *)
Definition parse_emails (input_str : string) : list string :=
  List.map Py.strip
    (List.filter (λ email, Py.truthy_str (Py.strip email))
       (Py.split comma input_str)).

Definition token_path (user_email : string) : string :=
  "tokens/token_" +:+ user_email +:+ ".json".

(** Lines 82-96. *)
Definition get_gmail_service (env : Env) : Script Session (Service * string) :=
  creds ← collaborator OAuthFlow (run_local_server (gmail env));
  let service := {| credentials := creds |} in
  user_email ← collaborator GetProfile (get_profile (gmail env));
  when (negb (is_allowed_user user_email))
    (raise (PermissionError "Access denied: unauthorized domain"));;
  write_file (token_path user_email) creds;;
  mret (service, user_email).

(** Lines 44-59: the prompt built around the description. *)
Definition prompt_of (gmail_desc : string) : string :=
  String newline "You are an expert professional email writer."
  +:+ String newline (String newline "Email description:")
  +:+ String newline gmail_desc
  +:+ String newline (String newline "Rules:")
  +:+ String newline "- Plain text only"
  +:+ String newline "- Proper paragraphs"
  +:+ String newline "- Professional tone"
  +:+ String newline "- No subject inside body"
  +:+ String newline "- End with sign-off"
  +:+ String newline (String newline "Return structured output only.")
  +:+ String newline "".

(** The one-node workflow (lines 44-71). *)
Definition workflow_invoke (env : Env) (gmail_desc : string)
  : Script Session StructuredEmail :=
  collaborator (LlmInvoke (prompt_of gmail_desc)) (llm env).

(** The message both actions build (lines 100-104 and 115-119). *)
Definition build_message (to_list : option (list string))
    (subject body : option string) (cc_list : option (list string))
  : Script Session Message :=
  html ← match body with
         | Some b => mret (Py.replace newline "<br>" b)
         | None =>
             raise (AttributeError
                      "'NoneType' object has no attribute 'replace'")
         end;
  to ← join_checked ", " to_list;
  mret {| msg_subtype := "html"; msg_body := html; msg_to := to;
          msg_subject := subject;
          msg_cc := match cc_list with
                    | Some l => if Py.truthy_list l then Some (Py.join ", " l)
                                else None
                    | None => None
                    end |}.

(** Lines 99-111; answers [draft.get("id")]. The message is serialized
    (line 106) before the request is built. *)
Definition create_gmail_draft (env : Env) (service : option Service)
    (to_list : option (list string)) (subject body : string)
    (cc_list : option (list string)) : Script Session (option string) :=
  msg ← build_message to_list (Some subject) (Some body) cc_list;
  library (as_bytes env msg);;
  svc ← users service;
  collaborator (DraftsCreate svc msg) (drafts_create (gmail env)).

(** Lines 114-128. The message is serialized (line 121) before the request
    is built. *)
Definition send_gmail_message (env : Env) (service : option Service)
    (to_list : option (list string)) (subject body : option string)
    (cc_list : option (list string)) (draft_id : option string)
  : Script Session unit :=
  msg ← build_message to_list subject body cc_list;
  library (as_bytes env msg);;
  svc ← users service;
  collaborator (MessagesSend svc msg) (messages_send (gmail env));;
  match draft_id with
  | Some id =>
      when (Py.truthy_str id)
        (collaborator (DraftsDelete svc id) (drafts_delete (gmail env)))
  | None => mret tt
  end.

(** Lines 142-156: the account section of the page. *)
Definition auth_ui (inp : Inputs) (env : Env) : Script Session unit :=
  s ← session_state;
  if negb (Py.truthy_opt Py.truthy_obj (user_service s)) then
    b ← st_button (clicked inp) Authenticate;
    when b
      (try_except
         (r ← get_gmail_service env;
          assign (set_user_service (Some r.1));;
          assign (set_user_email (Some r.2));;
          show (UiSuccess ("Logged in as " +:+ r.2)))
         (λ e, show (UiError (str_of e))))
  else
    show (UiInfo ("Logged in as " +:+ Py.fmt (user_email s)));;
    b ← st_button (clicked inp) Logout;
    when b
      (assign (set_user_service None);;
       assign (set_user_email None);;
       st_stop).

(** Lines 159-182: the generation section. *)
Definition generation_ui (inp : Inputs) (env : Env) : Script Session unit :=
  s ← session_state;
  when (Py.truthy_opt Py.truthy_obj (user_service s))
    (b ← st_button (clicked inp) Generate;
     when b
       (response ← workflow_invoke env (user_prompt inp);
        assign (set_generated_email (Some (gmail_content response)));;
        assign (set_generated_subject (Some (gmail_subject response)));;
        assign (set_generated_to (Some (parse_emails (to_email inp))));;
        assign (set_generated_cc
                  (if Py.truthy_str (cc_email inp)
                   then Some (parse_emails (cc_email inp)) else None));;
        s ← session_state;
        id ← create_gmail_draft env (user_service s) (generated_to s)
               (gmail_subject response) (gmail_content response)
               (generated_cc s);
        assign (set_draft_id id);;
        show (UiSuccess "Draft created. Please review below."))).

(** Lines 200-205. *)
Definition reset_fields : Script Session unit :=
  assign (set_generated_email None);;
  assign (set_generated_subject None);;
  assign (set_generated_to None);;
  assign (set_generated_cc None);;
  assign (set_draft_id None).

(** Lines 185-223: the approval section. The read-only [To] field joins
    [generated_to] (line 188). *)
Definition approval_ui (inp : Inputs) (env : Env) : Script Session unit :=
  s ← session_state;
  when (Py.truthy_opt Py.truthy_str (generated_email s))
    (join_checked ", " (generated_to s);;
     b1 ← st_button (clicked inp) Cancel;
     when b1 (reset_fields;; show (UiWarning "Email cancelled"));;
     b2 ← st_button (clicked inp) SendEmail;
     when b2
       (s ← session_state;
        send_gmail_message env (user_service s) (generated_to s)
          (generated_subject s) (generated_email s) (generated_cc s)
          (draft_id s);;
        show (UiSuccess "Email sent successfully!");;
        reset_fields)).

(** The whole script, top to bottom. *)
Definition script (inp : Inputs) (env : Env) : Script Session unit :=
  auth_ui inp env;; generation_ui inp env;; approval_ui inp env.

End Demo.

(** ** The vocabulary of the specification *)

(** [c in s] *)
Fixpoint contains (c : ascii) (s : string) : bool :=
  match s with
  | EmptyString => false
  | String c' s' => Ascii.eqb c' c || contains c s'
  end.

(** The domain of an address: the text after its last at-sign, and the whole
    text when it has none. *)
Fixpoint domain_of (e : string) : string :=
  match e with
  | EmptyString => EmptyString
  | String c e' =>
      if contains at_sign e' then domain_of e'
      else if Ascii.eqb c at_sign then e' else e
  end.

(** Membership in the allow-list up to letter case. *)
Definition allowed_nocase (d : string) : Prop :=
  ∃ a, a ∈ ALLOWED_DOMAINS ∧ Py.lower a = Py.lower d.

(** The states of the session state machine, read off the session the way
    the scripts branch on it. *)
Inductive State : Type := Anonymous | Authenticated | PendingApproval.

Definition basic_state (s : Basic.Session) : State :=
  match Basic.user_service s with
  | None => Anonymous
  | Some _ => Authenticated
  end.

Definition demo_state (s : Demo.Session) : State :=
  match Demo.user_service s with
  | None => Anonymous
  | Some _ =>
      if Py.truthy_opt Py.truthy_str (Demo.generated_email s)
      then PendingApproval else Authenticated
  end.

(** The session without its pending draft. *)
Definition without_pending (s : Demo.Session) : Demo.Session :=
  {| Demo.user_service := Demo.user_service s;
     Demo.user_email := Demo.user_email s;
     Demo.generated_email := None;
     Demo.generated_subject := None;
     Demo.generated_to := None;
     Demo.generated_cc := None;
     Demo.draft_id := None |}.

(** The message of the pending draft with body [body] and recipients
    [tos]. *)
Definition pending_message (s : Demo.Session) (body : string)
    (tos : list string) : Message :=
  {| msg_subtype := "html";
     msg_body := Py.replace newline "<br>" body;
     msg_to := Py.join ", " tos;
     msg_subject := Demo.generated_subject s;
     msg_cc := match Demo.generated_cc s with
               | Some l => if Py.truthy_list l then Some (Py.join ", " l)
                           else None
               | None => None
               end |}.

(** The top of the approval variant's page for a signed-in session. *)
Definition signed_in_page (s : Demo.Session) : list Ui :=
  [UiInfo ("Logged in as " +:+ Py.fmt (Demo.user_email s));
   Shown Logout; Shown Generate].

(** The message that the basic variant drafts for the answer [body]. *)
Definition basic_message (inp : Basic.Inputs) (body : string) : Message :=
  {| msg_subtype := "plain"; msg_body := body;
     msg_to := Basic.to_email inp;
     msg_subject := Some (Basic.subject inp);
     msg_cc := None |}.

(** The session after the generation handler stored the model's answer and
    the parsed inputs, with [id] as draft id. *)
Definition with_generated (s : Demo.Session) (answer : Demo.StructuredEmail)
    (inp : Demo.Inputs) (id : option string) : Demo.Session :=
  {| Demo.user_service := Demo.user_service s;
     Demo.user_email := Demo.user_email s;
     Demo.generated_email := Some (Demo.gmail_content answer);
     Demo.generated_subject := Some (Demo.gmail_subject answer);
     Demo.generated_to := Some (Demo.parse_emails (Demo.to_email inp));
     Demo.generated_cc :=
       if Py.truthy_str (Demo.cc_email inp)
       then Some (Demo.parse_emails (Demo.cc_email inp)) else None;
     Demo.draft_id := id |}.

(** The message that the generation handler drafts. *)
Definition drafted_message (answer : Demo.StructuredEmail)
    (inp : Demo.Inputs) : Message :=
  {| msg_subtype := "html";
     msg_body := Py.replace newline "<br>" (Demo.gmail_content answer);
     msg_to := Py.join ", " (Demo.parse_emails (Demo.to_email inp));
     msg_subject := Some (Demo.gmail_subject answer);
     msg_cc :=
       if Py.truthy_str (Demo.cc_email inp)
          && Py.truthy_list (Demo.parse_emails (Demo.cc_email inp))
       then Some (Py.join ", " (Demo.parse_emails (Demo.cc_email inp)))
       else None |}.

(** The gate as a property of a session: the address it holds, if any,
    passes [is_allowed_user]. *)
Definition gate_holds (s : Demo.Session) : Prop :=
  ∀ e, Demo.user_email s = Some e → Demo.is_allowed_user e = true.

(** The sessions of the approval variant that runs of the script reach from
    the initial one, whatever is clicked and whatever the collaborators
    answer. *)
Inductive reachable : Demo.Session → Prop :=
| reach_initial : reachable Demo.initial
| reach_run (inp : Demo.Inputs) (env : Demo.Env) (s : Demo.Session)
    (fs : gmap string string) :
    reachable s → reachable (session (Demo.script inp env (fresh s fs)).1).

(** A computation keeps a property of the session: it holds however the
    computation ends, if it held before. *)
Definition keeps {S A} (P : S → Prop) (m : Script S A) : Prop :=
  ∀ r, P (session r) → P (session (m r).1).

(** A computation preserves a property of the whole run state, however it
    ends. *)
Definition preserves {S A} (P : Run S → Prop) (m : Script S A) : Prop :=
  ∀ r, P r → P (m r).1.

(** The calls of the authentication. *)
Definition auth_call (c : Call) : Prop := c = OAuthFlow ∨ c = GetProfile.

(** A run that started signed out: only authentication calls so far, and
    either the click was on [Authenticate] or the session is still signed
    out. *)
Definition basic_quiet (inp : Basic.Inputs) (r : Run Basic.Session) : Prop :=
  Forall auth_call (calls r)
  ∧ (Basic.clicked inp = Some Authenticate
     ∨ Basic.user_service (session r) = None).

Definition demo_quiet (inp : Demo.Inputs) (r : Run Demo.Session) : Prop :=
  Forall auth_call (calls r)
  ∧ (Demo.clicked inp = Some Authenticate
     ∨ Demo.user_service (session r) = None).

(** The sessions of the basic variant that runs of the script reach from
    the initial one. *)
Inductive basic_reachable : Basic.Session → Prop :=
| basic_reach_initial : basic_reachable Basic.initial
| basic_reach_run (inp : Basic.Inputs) (env : Basic.Env) (s : Basic.Session)
    (fs : gmap string string) :
    basic_reachable s →
    basic_reachable (session (Basic.script inp env (fresh s fs)).1).

(** A session as the basic script's handlers leave it: signed out without
    an address, or signed in with an address that passes the gate. *)
Definition basic_shape (s : Basic.Session) : Prop :=
  match Basic.user_service s, Basic.user_email s with
  | None, None => True
  | Some _, Some e => Basic.is_allowed_user e = true
  | _, _ => False
  end.

(** The same for the approval variant, with the pending draft: a stored
    content comes with stored recipients and subject; without one, nothing
    of a draft is stored. *)
Definition demo_shape (s : Demo.Session) : Prop :=
  match Demo.user_service s, Demo.user_email s with
  | None, None => True
  | Some _, Some e => Demo.is_allowed_user e = true
  | _, _ => False
  end
  ∧ match Demo.generated_email s with
    | Some _ =>
        is_Some (Demo.generated_to s) ∧ is_Some (Demo.generated_subject s)
    | None =>
        Demo.generated_to s = None ∧ Demo.generated_subject s = None
        ∧ Demo.generated_cc s = None ∧ Demo.draft_id s = None
    end.

(** ** Sample runs *)

Module Sample.

Definition token : Creds := "{token}".

Definition svc : Service := {| credentials := token |}.

(** A Gmail side on which every call succeeds, for the account [email]. *)
Definition gmail_ok (email : string) : Gmail :=
  {| run_local_server := inr token;
     get_profile := inr email;
     drafts_create := inr (Some "r-1");
     messages_send := inr tt;
     drafts_delete := inr tt |}.

(** The same, except that deleting a draft fails. *)
Definition gmail_delete_fails (email : string) : Gmail :=
  {| run_local_server := inr token;
     get_profile := inr email;
     drafts_create := inr (Some "r-1");
     messages_send := inr tt;
     drafts_delete := inl (CollaboratorError "HttpError 404") |}.

(** A Gmail side whose profile call fails after a completed OAuth flow. *)
Definition gmail_profile_fails : Gmail :=
  {| run_local_server := inr token;
     get_profile := inl (CollaboratorError "HttpError 503");
     drafts_create := inr (Some "r-1");
     messages_send := inr tt;
     drafts_delete := inr tt |}.

(** A Gmail side that refuses to create a draft. *)
Definition gmail_create_fails : Gmail :=
  {| run_local_server := inr token;
     get_profile := inr "alice@iands.com";
     drafts_create := inl (CollaboratorError "HttpError 400");
     messages_send := inr tt;
     drafts_delete := inr tt |}.

(** A Gmail side that refuses to send. *)
Definition gmail_send_fails : Gmail :=
  {| run_local_server := inr token;
     get_profile := inr "alice@iands.com";
     drafts_create := inr (Some "r-1");
     messages_send := inl (CollaboratorError "HttpError 403");
     drafts_delete := inr tt |}.

(** An answer of the email library under which every message serializes;
    the messages of the sample runs (printable ASCII, no line break in a
    header) are of those the library serializes. *)
Definition serializes : Message → Exn + unit := λ _, inr tt.

(** An email library that refuses every message, as the real one does a
    subject with a line break before text. *)
Definition refuses : Message → Exn + unit :=
  λ _, inl (CollaboratorError "HeaderWriteError").

Definition basic_env (email : string) : Basic.Env :=
  {| Basic.gmail := gmail_ok email; Basic.llm := inr "Dear team, ...";
     Basic.as_bytes := serializes |}.

Definition answer : Demo.StructuredEmail :=
  {| Demo.gmail_content := "Dear team, ..."; Demo.gmail_subject := "Invoice" |}.

Definition demo_env (email : string) : Demo.Env :=
  {| Demo.gmail := gmail_ok email; Demo.llm := inr answer;
     Demo.as_bytes := serializes |}.

Definition demo_env_delete_fails (email : string) : Demo.Env :=
  {| Demo.gmail := gmail_delete_fails email; Demo.llm := inr answer;
     Demo.as_bytes := serializes |}.

Definition basic_click (b : Button) : Basic.Inputs :=
  {| Basic.clicked := Some b; Basic.user_prompt := "Follow up on invoice #123";
     Basic.to_email := "customercare@sbi.co.in";
     Basic.subject := "Regarding Unauthorized Amount Deduction" |}.

Definition demo_click (b : Button) (to cc : string) : Demo.Inputs :=
  {| Demo.clicked := Some b; Demo.user_prompt := "Follow up on invoice #123";
     Demo.to_email := to; Demo.cc_email := cc |}.

(** Signed in, nothing pending. *)
Definition basic_session (email : string) : Basic.Session :=
  {| Basic.user_service := Some svc; Basic.user_email := Some email |}.

Definition demo_session (email : string) : Demo.Session :=
  {| Demo.user_service := Some svc; Demo.user_email := Some email;
     Demo.generated_email := None; Demo.generated_subject := None;
     Demo.generated_to := None; Demo.generated_cc := None;
     Demo.draft_id := None |}.

(** Signed in, with a draft awaiting approval. *)
Definition demo_pending (email : string) : Demo.Session :=
  {| Demo.user_service := Some svc; Demo.user_email := Some email;
     Demo.generated_email := Some "Dear team, ...";
     Demo.generated_subject := Some "Invoice";
     Demo.generated_to := Some ["a@x.com"; "b@y.com"];
     Demo.generated_cc := None;
     Demo.draft_id := Some "r-1" |}.

(** A token directory holding the token of [email]. *)
Definition tokens_of (email : string) : gmap string string :=
  {[ Basic.token_path email := token ]}.

End Sample.

(** ** Proof automation *)

(** A fact about one character, by the 256 cases. *)
Ltac by_char c :=
  destruct c as [[] [] [] [] [] [] [] []]; vm_compute; reflexivity.

(** Runs a script symbolically: the monad and its primitives unfold, the
    scripts' own functions stay folded until they are unfolded by name. *)
Ltac run_script :=
  cbv beta iota zeta delta
    [mbind mret Script_bind Script_ret st_button when try_except show assign
     collaborator library session_state raise st_stop write_file path_exists
     os_remove join_checked users fresh];
  cbn.

(** Decides which button the run's click was on. *)
Ltac buttons :=
  repeat first
    [ rewrite bool_decide_eq_true_2 by reflexivity
    | rewrite bool_decide_eq_false_2 by discriminate ];
  cbn.

(** Every call of a list is an authentication call. *)
Ltac auth_calls :=
  rewrite ?Forall_app, ?Forall_cons, ?Forall_nil; unfold auth_call;
  intuition auto.

Arguments Basic.get_gmail_service : simpl never.
Arguments Demo.get_gmail_service : simpl never.
Arguments Demo.parse_emails : simpl never.

(** ** Strings: splitting, the last segment, letter case *)

Lemma app_String (c : ascii) (s t : string) :
  String c s +:+ t = String c (s +:+ t).
Proof. reflexivity. Qed.

Lemma split_not_nil (sep : ascii) (s : string) : Py.split sep s ≠ [].
Proof.
  induction s as [|c s IH]; simpl; [done|].
  destruct (Ascii.eqb c sep); [done|].
  destruct (Py.split sep s); done.
Qed.

(** [l[-1]] never raises on the result of [split]. *)
Lemma split_last_total (sep : ascii) (s : string) :
  ∃ seg, List.last (Py.split sep s) EmptyString = seg
         ∧ seg ∈ Py.split sep s.
Proof.
  pose proof (split_not_nil sep s) as Hne.
  destruct (exists_last Hne) as (front & seg & ->).
  exists seg. rewrite last_last. split; [done|].
  apply list_elem_of_In, in_or_app. right. now left.
Qed.

Lemma split_without (sep : ascii) (s : string) :
  contains sep s = false → Py.split sep s = [s].
Proof.
  induction s as [|c s IH]; simpl; [done|].
  intros [Hc Hs]%orb_false_elim. rewrite Hc, (IH Hs). done.
Qed.

Lemma split_with (sep : ascii) (s : string) :
  contains sep s = true → ∃ a b l, Py.split sep s = a :: b :: l.
Proof.
  induction s as [|c s IH]; simpl; [done|].
  destruct (Ascii.eqb c sep) eqn:Hc; simpl.
  - intros _. pose proof (split_not_nil sep s).
    destruct (Py.split sep s) as [|b l]; [done|]. by exists EmptyString, b, l.
  - intros (a & b & l & ->)%IH. by exists (String c a), b, l.
Qed.

Lemma domain_of_without (e : string) :
  contains at_sign e = false → domain_of e = e.
Proof.
  destruct e as [|c e]; simpl; [done|].
  intros [Hc He]%orb_false_elim. by rewrite He, Hc.
Qed.

(** The source's [email.split("@")[-1]] is the specification's domain. *)
Lemma split_last_domain (e : string) :
  Py.index_last (Py.split at_sign e) = domain_of e.
Proof.
  unfold Py.index_last.
  induction e as [|c e IH]; [done|].
  cbn [Py.split domain_of].
  destruct (contains at_sign e) eqn:He.
  - destruct (split_with _ _ He) as (a & b & l & Hs).
    rewrite <- IH, Hs. by destruct (Ascii.eqb c at_sign).
  - rewrite (split_without _ _ He). by destruct (Ascii.eqb c at_sign).
Qed.

Lemma app_Empty (t : string) : EmptyString +:+ t = t.
Proof. reflexivity. Qed.

Lemma contains_app_sep (sep : ascii) (l d : string) :
  contains sep (l +:+ String sep d) = true.
Proof.
  induction l as [|c l IH].
  - rewrite app_Empty. cbn. by rewrite Ascii.eqb_refl.
  - rewrite app_String. cbn. rewrite IH. apply orb_true_r.
Qed.

(** Whatever stands before an at-sign does not reach the domain. *)
Lemma domain_of_local (l d : string) :
  domain_of (l +:+ String at_sign d) = domain_of d.
Proof.
  induction l as [|c l IH].
  - rewrite app_Empty. cbn [domain_of].
    destruct (contains at_sign d) eqn:Hd; [done|].
    rewrite Ascii.eqb_refl. by rewrite domain_of_without.
  - rewrite app_String. cbn [domain_of]. by rewrite contains_app_sep.
Qed.

Lemma lower_char_at (c : ascii) :
  Ascii.eqb (Py.lower_char c) at_sign = Ascii.eqb c at_sign.
Proof. by_char c. Qed.

Lemma lower_char_idem (c : ascii) :
  Py.lower_char (Py.lower_char c) = Py.lower_char c.
Proof. by_char c. Qed.

Lemma lower_idem (s : string) : Py.lower (Py.lower s) = Py.lower s.
Proof.
  induction s as [|c s IH]; simpl; [done|]. by rewrite lower_char_idem, IH.
Qed.

Lemma contains_at_lower (s : string) :
  contains at_sign (Py.lower s) = contains at_sign s.
Proof.
  induction s as [|c s IH]; simpl; [done|]. by rewrite lower_char_at, IH.
Qed.

(** Lowering an address lowers its domain, and moves no at-sign. *)
Lemma domain_of_lower (s : string) :
  domain_of (Py.lower s) = Py.lower (domain_of s).
Proof.
  induction s as [|c s IH]; simpl; [done|].
  rewrite contains_at_lower, lower_char_at, IH.
  destruct (contains at_sign s), (Ascii.eqb c at_sign); done.
Qed.

Lemma allowed_are_lower (a : string) :
  a ∈ ALLOWED_DOMAINS → Py.lower a = a.
Proof.
  unfold ALLOWED_DOMAINS.
  intros [->%elem_of_singleton | ->%elem_of_singleton]%elem_of_union;
    reflexivity.
Qed.

Lemma basic_gate_domain (e : string) :
  Basic.is_allowed_user e
  = bool_decide (Py.lower (domain_of e) ∈ ALLOWED_DOMAINS).
Proof.
  unfold Basic.is_allowed_user. cbv zeta. by rewrite split_last_domain.
Qed.

Lemma demo_gate_basic (e : string) :
  Demo.is_allowed_user e = Basic.is_allowed_user e.
Proof. reflexivity. Qed.

(** ** The access gate (C1, C10) *)

(** C1. [is_allowed_user] is true exactly when the domain of its argument
    (the text after the last at-sign) is in the allow-list up to letter
    case; the two scripts' functions agree; the answer does not depend on
    what stands before the at-sign, nor on the letter case of the address.
    The function is a total function from strings to booleans: it reads and
    writes nothing of a run. *)
Theorem is_allowed_user_spec :
  (∀ e, Basic.is_allowed_user e = true ↔ allowed_nocase (domain_of e))
  ∧ (∀ e, Demo.is_allowed_user e = Basic.is_allowed_user e)
  ∧ (∀ local1 local2 domain,
        Basic.is_allowed_user (local1 +:+ "@" +:+ domain)
        = Basic.is_allowed_user (local2 +:+ "@" +:+ domain))
  ∧ (∀ e1 e2, Py.lower e1 = Py.lower e2 →
        Basic.is_allowed_user e1 = Basic.is_allowed_user e2).
Proof.
  split; [|split; [|split]].
  - intros e. rewrite basic_gate_domain, bool_decide_eq_true. split.
    + intros Hin. exists (Py.lower (domain_of e)). by rewrite lower_idem.
    + intros (a & Ha & Heq). rewrite <- Heq, (allowed_are_lower a Ha). done.
  - exact demo_gate_basic.
  - intros local1 local2 domain. rewrite !basic_gate_domain.
    change ("@" +:+ domain) with (String at_sign domain).
    by rewrite !domain_of_local.
  - intros e1 e2 Heq. rewrite !basic_gate_domain.
    by rewrite <- (domain_of_lower e1), <- (domain_of_lower e2), Heq.
Qed.

Lemma is_allowed_user_spec_witness :
  Basic.is_allowed_user "Bob@Kogo.AI" = Basic.is_allowed_user "bob@kogo.ai".
Proof.
  apply (proj2 (proj2 (proj2 is_allowed_user_spec))). vm_compute. reflexivity.
Defined.

(** C10. An argument without an at-sign is its own domain: the gate answers
    whether the whole lowered string is in the allow-list, in both scripts.
    So the bare string [iands.com] passes the gate, as an address at that
    domain does. *)
Theorem bare_domain_is_accepted (e : string) :
  contains at_sign e = false →
  Basic.is_allowed_user e = bool_decide (Py.lower e ∈ ALLOWED_DOMAINS)
  ∧ Demo.is_allowed_user e = bool_decide (Py.lower e ∈ ALLOWED_DOMAINS)
  ∧ Basic.is_allowed_user "iands.com" = true
  ∧ Demo.is_allowed_user "iands.com" = true
  ∧ Basic.is_allowed_user "iands.com"
    = Basic.is_allowed_user "someone@iands.com".
Proof.
  intros He.
  assert (Basic.is_allowed_user e
          = bool_decide (Py.lower e ∈ ALLOWED_DOMAINS)) as Hb.
  { by rewrite basic_gate_domain, (domain_of_without e He). }
  split; [exact Hb|]. split; [by rewrite demo_gate_basic|].
  repeat split; vm_compute; reflexivity.
Qed.

Lemma bare_domain_is_accepted_witness :
  Basic.is_allowed_user "iands.com"
  = bool_decide (Py.lower "iands.com" ∈ ALLOWED_DOMAINS)
  ∧ Basic.is_allowed_user "iands.com" = true.
Proof.
  destruct (bare_domain_is_accepted "iands.com") as (H1 & _ & H3 & _).
  - vm_compute. reflexivity.
  - split; [exact H1 | exact H3].
Defined.

(** ** Authentication (C2, C6) *)

Lemma basic_get_gmail_service_denied (env : Basic.Env) (r : Run Basic.Session)
    (creds : Creds) (email : string) :
  run_local_server (Basic.gmail env) = inr creds →
  get_profile (Basic.gmail env) = inr email →
  Basic.is_allowed_user email = false →
  Basic.get_gmail_service env r
  = (mkRun (session r) (files r) ((calls r ++ [OAuthFlow]) ++ [GetProfile])
       (ui r),
     Raised (PermissionError
               ("Access denied for " +:+ email +:+ ". "
                +:+ "Only iands.com and kogo.ai users are allowed."))).
Proof.
  intros Hflow Hprofile Hgate. unfold Basic.get_gmail_service. run_script.
  rewrite Hflow, Hprofile. cbn. rewrite Hgate. reflexivity.
Qed.

Lemma demo_get_gmail_service_denied (env : Demo.Env) (r : Run Demo.Session)
    (creds : Creds) (email : string) :
  run_local_server (Demo.gmail env) = inr creds →
  get_profile (Demo.gmail env) = inr email →
  Demo.is_allowed_user email = false →
  Demo.get_gmail_service env r
  = (mkRun (session r) (files r) ((calls r ++ [OAuthFlow]) ++ [GetProfile])
       (ui r),
     Raised (PermissionError "Access denied: unauthorized domain")).
Proof.
  intros Hflow Hprofile Hgate. unfold Demo.get_gmail_service. run_script.
  rewrite Hflow, Hprofile. cbn. rewrite Hgate. reflexivity.
Qed.

(** C2, as the code has it. In [get_gmail_service] of the basic variant (and
    of the approval variant alike), when the address that the profile call
    answers fails the allow-list check, [PermissionError] is raised before
    the token file is opened: the token directory is left as it was, nothing
    of the credential is persisted, and the session is untouched. *)
Theorem denied_before_persisting (creds : Creds) (email : string)
    (benv : Basic.Env) (br : Run Basic.Session)
    (denv : Demo.Env) (dr : Run Demo.Session) :
  run_local_server (Basic.gmail benv) = inr creds →
  get_profile (Basic.gmail benv) = inr email →
  run_local_server (Demo.gmail denv) = inr creds →
  get_profile (Demo.gmail denv) = inr email →
  Basic.is_allowed_user email = false →
  (∃ msg, (Basic.get_gmail_service benv br).2 = Raised (PermissionError msg))
  ∧ files (Basic.get_gmail_service benv br).1 = files br
  ∧ session (Basic.get_gmail_service benv br).1 = session br
  ∧ (Demo.get_gmail_service denv dr).2
    = Raised (PermissionError "Access denied: unauthorized domain")
  ∧ files (Demo.get_gmail_service denv dr).1 = files dr
  ∧ session (Demo.get_gmail_service denv dr).1 = session dr.
Proof.
  intros Hb1 Hb2 Hd1 Hd2 Hgate.
  rewrite (basic_get_gmail_service_denied benv br creds email Hb1 Hb2 Hgate).
  rewrite (demo_get_gmail_service_denied denv dr creds email Hd1 Hd2 Hgate).
  cbn. eauto 10.
Qed.

Lemma denied_before_persisting_witness :
  files (Basic.get_gmail_service (Sample.basic_env "mallory@evil.com")
           (fresh Basic.initial (Sample.tokens_of "alice@iands.com"))).1
  = Sample.tokens_of "alice@iands.com".
Proof.
  apply (denied_before_persisting Sample.token "mallory@evil.com"
           (Sample.basic_env "mallory@evil.com")
           (fresh Basic.initial (Sample.tokens_of "alice@iands.com"))
           (Sample.demo_env "mallory@evil.com")
           (fresh Demo.initial ∅));
    vm_compute; reflexivity.
Defined.

(** C2, as the claim states it, fails: for the account [mallory@evil.com]
    the basic variant raises and the token file of that account does not
    exist afterwards. *)
Lemma basic_denied_token_not_written :
  Basic.is_allowed_user "mallory@evil.com" = false
  ∧ (Basic.get_gmail_service (Sample.basic_env "mallory@evil.com")
       (fresh Basic.initial ∅)).2
    = Raised (PermissionError
                ("Access denied for mallory@evil.com. "
                 +:+ "Only iands.com and kogo.ai users are allowed."))
  ∧ files (Basic.get_gmail_service (Sample.basic_env "mallory@evil.com")
             (fresh Basic.initial ∅)).1
    !! "tokens/token_mallory@evil.com.json" = None.
Proof. vm_compute. repeat split; reflexivity. Qed.

(** C6. A click on [Authenticate] in state Anonymous, answered with an
    address that fails the allow-list check, leaves the session as it was
    ([user_service] and [user_email] stay [None]) and the token directory
    too, and puts the access-denied error on the page; in both variants.
    (In the approval variant the page goes on with the approval section
    when a draft is still in the session; without one it ends there.) *)
Theorem authenticate_denied_stays_anonymous (creds : Creds) (email : string)
    (binp : Basic.Inputs) (benv : Basic.Env)
    (dinp : Demo.Inputs) (denv : Demo.Env) (ds : Demo.Session)
    (fs : gmap string string) :
  run_local_server (Basic.gmail benv) = inr creds →
  get_profile (Basic.gmail benv) = inr email →
  run_local_server (Demo.gmail denv) = inr creds →
  get_profile (Demo.gmail denv) = inr email →
  Basic.is_allowed_user email = false →
  Basic.clicked binp = Some Authenticate →
  Demo.clicked dinp = Some Authenticate →
  Demo.user_service ds = None →
  Demo.user_email ds = None →
  Basic.script binp benv (fresh Basic.initial fs)
  = (mkRun Basic.initial fs [OAuthFlow; GetProfile]
       [Shown Authenticate;
        UiError ("Authentication failed: Access denied for " +:+ email
                 +:+ ". Only iands.com and kogo.ai users are allowed.")],
     Value tt)
  ∧ basic_state Basic.initial = Anonymous
  ∧ (∃ page out,
        Demo.script dinp denv (fresh ds fs)
        = (mkRun ds fs [OAuthFlow; GetProfile]
             (Shown Authenticate
              :: UiError "Access denied: unauthorized domain" :: page),
           out))
  ∧ (Demo.generated_email ds = None →
     Demo.script dinp denv (fresh ds fs)
     = (mkRun ds fs [OAuthFlow; GetProfile]
          [Shown Authenticate; UiError "Access denied: unauthorized domain"],
        Value tt))
  ∧ demo_state ds = Anonymous.
Proof.
  intros Hb1 Hb2 Hd1 Hd2 Hgate Hbc Hdc Hsvc Hmail.
  split; [|split; [done|split; [|split]]].
  - unfold Basic.script, Basic.auth_ui, Basic.hard_block, Basic.generation_ui.
    run_script. rewrite Hbc. buttons.
    rewrite (basic_get_gmail_service_denied benv _ creds email Hb1 Hb2 Hgate).
    reflexivity.
  - unfold Demo.script, Demo.auth_ui, Demo.generation_ui, Demo.approval_ui.
    run_script. rewrite Hsvc, Hdc. buttons.
    rewrite (demo_get_gmail_service_denied denv _ creds email Hd1 Hd2 Hgate).
    cbn. rewrite Hsvc. cbn.
    destruct (Demo.generated_email ds) as [[|c body]|]; cbn; eauto.
    destruct (Demo.generated_to ds); buttons; eauto.
  - intros Hnone.
    unfold Demo.script, Demo.auth_ui, Demo.generation_ui, Demo.approval_ui.
    run_script. rewrite Hsvc, Hdc. buttons.
    rewrite (demo_get_gmail_service_denied denv _ creds email Hd1 Hd2 Hgate).
    cbn. rewrite Hsvc. cbn. by rewrite Hnone.
  - unfold demo_state. by rewrite Hsvc.
Qed.

Lemma authenticate_denied_stays_anonymous_witness :
  Basic.script (Sample.basic_click Authenticate)
    (Sample.basic_env "mallory@evil.com") (fresh Basic.initial ∅)
  = (mkRun Basic.initial ∅ [OAuthFlow; GetProfile]
       [Shown Authenticate;
        UiError ("Authentication failed: Access denied for "
                 +:+ "mallory@evil.com"
                 +:+ ". Only iands.com and kogo.ai users are allowed.")],
     Value tt).
Proof.
  apply (authenticate_denied_stays_anonymous Sample.token "mallory@evil.com"
           (Sample.basic_click Authenticate)
           (Sample.basic_env "mallory@evil.com")
           (Sample.demo_click Authenticate "" "")
           (Sample.demo_env "mallory@evil.com") Demo.initial ∅);
    vm_compute; reflexivity.
Defined.

(** ** Logout and Switch Account (C4) *)

(** The basic variant's [Logout] removes the token file of the session's
    address and clears the session. *)
Lemma basic_logout_deletes_token (inp : Basic.Inputs) (env : Basic.Env)
    (svc : Service) (email : string) (fs : gmap string string) :
  Basic.clicked inp = Some Logout →
  Basic.script inp env
    (fresh {| Basic.user_service := Some svc;
              Basic.user_email := Some email |} fs)
  = (mkRun Basic.initial (delete (Basic.token_path email) fs) []
       [UiInfo ("Logged in as: " +:+ email); Shown SwitchAccount; Shown Logout;
        UiSuccess "Logged out successfully"],
     Stopped).
Proof.
  intros Hc. unfold Basic.script, Basic.auth_ui. run_script.
  rewrite Hc. buttons.
  case_bool_decide as Hfile; cbn; [done|].
  rewrite delete_id; [done|].
  by apply eq_None_not_Some.
Qed.

Lemma basic_logout_token_gone (inp : Basic.Inputs) (env : Basic.Env)
    (svc : Service) (email : string) (fs : gmap string string) :
  Basic.clicked inp = Some Logout →
  files (Basic.script inp env
           (fresh {| Basic.user_service := Some svc;
                     Basic.user_email := Some email |} fs)).1
  !! Basic.token_path email = None.
Proof.
  intros Hc. rewrite (basic_logout_deletes_token inp env svc email fs Hc).
  cbn. apply lookup_delete_eq.
Qed.

(** The basic variant's [Switch Account] clears the session and leaves the
    token directory as it is. *)
Lemma basic_switch_keeps_token (inp : Basic.Inputs) (env : Basic.Env)
    (svc : Service) (email : option string) (fs : gmap string string) :
  Basic.clicked inp = Some SwitchAccount →
  Basic.script inp env
    (fresh {| Basic.user_service := Some svc; Basic.user_email := email |} fs)
  = (mkRun Basic.initial fs []
       [UiInfo ("Logged in as: " +:+ Py.fmt email); Shown SwitchAccount],
     Stopped).
Proof.
  intros Hc. unfold Basic.script, Basic.auth_ui. run_script.
  rewrite Hc. buttons.
  reflexivity.
Qed.

(** The approval variant's [Logout] clears [user_service] and [user_email]
    and touches nothing else: no file is removed, and a pending draft stays
    in the session. *)
Lemma demo_logout_keeps_files (inp : Demo.Inputs) (env : Demo.Env)
    (s : Demo.Session) (svc : Service) (fs : gmap string string) :
  Demo.clicked inp = Some Logout →
  Demo.user_service s = Some svc →
  Demo.script inp env (fresh s fs)
  = (mkRun (Demo.set_user_email None (Demo.set_user_service None s)) fs []
       [UiInfo ("Logged in as " +:+ Py.fmt (Demo.user_email s)); Shown Logout],
     Stopped).
Proof.
  intros Hc Hsvc. unfold Demo.script, Demo.auth_ui. run_script.
  rewrite Hsvc, Hc. buttons. reflexivity.
Qed.

(** C4, at the failing input. In the approval variant, [Logout] by
    [alice@iands.com], whose token file exists, ends in state Anonymous with
    the token file still in place, where the basic variant's [Logout] on the
    same session and directory removes it. *)
Theorem demo_logout_leaves_token :
  Demo.script (Sample.demo_click Logout "" "")
    (Sample.demo_env "alice@iands.com")
    (fresh (Sample.demo_session "alice@iands.com")
       (Sample.tokens_of "alice@iands.com"))
  = (mkRun Demo.initial (Sample.tokens_of "alice@iands.com") []
       [UiInfo "Logged in as alice@iands.com"; Shown Logout],
     Stopped)
  ∧ Sample.tokens_of "alice@iands.com" !! "tokens/token_alice@iands.com.json"
    = Some Sample.token
  ∧ files (Basic.script (Sample.basic_click Logout)
             (Sample.basic_env "alice@iands.com")
             (fresh (Sample.basic_session "alice@iands.com")
                (Sample.tokens_of "alice@iands.com"))).1
    !! "tokens/token_alice@iands.com.json" = None.
Proof. vm_compute. repeat split; reflexivity. Qed.

(** ** The gate before the generation section (C3) *)

(** The basic variant's hard block: with a signed-in session whose address
    is not empty and fails the allow-list check, every run halts before the
    generation section. No call is issued and the [Generate] button is not
    drawn, whatever was clicked. (The block tests a non-empty address only:
    line 137 starts with the truth value of [user_email].) *)
Lemma basic_hard_block_halts (inp : Basic.Inputs) (env : Basic.Env)
    (svc : Service) (email : string) (fs : gmap string string) :
  Py.truthy_str email = true →
  Basic.is_allowed_user email = false →
  ∃ r', Basic.script inp env
          (fresh {| Basic.user_service := Some svc;
                    Basic.user_email := Some email |} fs)
        = (r', Stopped)
        ∧ calls r' = []
        ∧ Shown Generate ∉ ui r'.
Proof.
  intros Htruthy Hgate.
  unfold Basic.script, Basic.auth_ui, Basic.hard_block. run_script.
  destruct (Basic.clicked inp) as [[]|]; buttons;
    try case_bool_decide; cbn; rewrite ?Htruthy, ?Hgate; cbn;
    (eexists; split; [reflexivity|split; [reflexivity|cbn]]);
    rewrite !elem_of_cons, elem_of_nil; intuition discriminate.
Qed.

(** *** The gate at authentication is an invariant of the approval variant

    The approval variant checks the address once, in [get_gmail_service].
    No run stores another address, so no session that runs reach from the
    initial one holds an address that fails the check. *)

Section Keeps.
Context {S : Type} (P : S → Prop).

Lemma keeps_ret {A} (a : A) : keeps P (mret a).
Proof. by intros r. Qed.

Lemma keeps_bind {A B} (m : Script S A) (k : A → Script S B) :
  keeps P m → (∀ a, keeps P (k a)) → keeps P (m ≫= k).
Proof.
  intros Hm Hk r HP. specialize (Hm r HP).
  unfold mbind, Script_bind. destruct (m r) as [r' [a| |]]; cbn in *; auto.
  by apply Hk.
Qed.

Lemma keeps_when (c : bool) (m : Script S unit) :
  keeps P m → keeps P (when c m).
Proof. destruct c; [done|]. intros _. apply keeps_ret. Qed.

Lemma keeps_try_except {A} (m : Script S A) (h : Exn → Script S A) :
  keeps P m → (∀ e, keeps P (h e)) → keeps P (try_except m h).
Proof.
  intros Hm Hh r HP. specialize (Hm r HP).
  unfold try_except. destruct (m r) as [r' [a| |]]; cbn in *; auto.
  by apply Hh.
Qed.

Lemma keeps_assign (f : S → S) :
  (∀ s, P s → P (f s)) → keeps P (assign f).
Proof. intros Hf r HP. by apply Hf. Qed.

Lemma keeps_session_state : keeps P session_state.
Proof. by intros r. Qed.

Lemma keeps_show (u : Ui) : keeps P (show u).
Proof. by intros r. Qed.

Lemma keeps_button (c : option Button) (b : Button) : keeps P (st_button c b).
Proof. by intros r. Qed.

Lemma keeps_stop {A} : keeps P (@st_stop S A).
Proof. by intros r. Qed.

Lemma keeps_raise {A} (e : Exn) : keeps P (@raise S A e).
Proof. by intros r. Qed.

Lemma keeps_collaborator {A} (c : Call) (o : Exn + A) :
  keeps P (collaborator c o).
Proof. by intros r. Qed.

Lemma keeps_library {A} (o : Exn + A) : keeps P (library o).
Proof. by intros r. Qed.

Lemma keeps_write_file (p t : string) : keeps P (write_file p t).
Proof. by intros r. Qed.

Lemma keeps_join_checked (sep : string) (l : option (list string)) :
  keeps P (join_checked sep l).
Proof. by destruct l; intros r. Qed.

Lemma keeps_users (o : option Service) : keeps P (users o).
Proof. by destruct o; intros r. Qed.

End Keeps.

Create HintDb keeps.
#[local] Hint Resolve keeps_ret keeps_bind keeps_when keeps_try_except
  keeps_assign keeps_session_state keeps_show keeps_button keeps_stop
  keeps_raise keeps_collaborator keeps_library keeps_write_file
  keeps_join_checked keeps_users : keeps.

Lemma demo_generation_keeps_gate (inp : Demo.Inputs) (env : Demo.Env) :
  keeps gate_holds (Demo.generation_ui inp env).
Proof.
  unfold Demo.generation_ui, Demo.create_gmail_draft, Demo.workflow_invoke,
    Demo.build_message.
  eauto 20 with keeps.
Qed.

Lemma demo_send_keeps_gate (env : Demo.Env) (service : option Service)
    (to_list : option (list string)) (subject body : option string)
    (cc_list : option (list string)) (draft_id : option string) :
  keeps gate_holds
    (Demo.send_gmail_message env service to_list subject body cc_list draft_id).
Proof.
  unfold Demo.send_gmail_message, Demo.build_message.
  destruct body, draft_id; eauto 20 with keeps.
Qed.

Lemma demo_approval_keeps_gate (inp : Demo.Inputs) (env : Demo.Env) :
  keeps gate_holds (Demo.approval_ui inp env).
Proof.
  unfold Demo.approval_ui, Demo.reset_fields.
  eauto 30 using demo_send_keeps_gate with keeps.
Qed.

(** What [get_gmail_service] answers has passed the gate, and the session
    is not touched by it. *)
Lemma demo_get_gmail_service_allowed (env : Demo.Env) (r : Run Demo.Session) :
  session (Demo.get_gmail_service env r).1 = session r
  ∧ ∀ svc e, (Demo.get_gmail_service env r).2 = Value (svc, e) →
             Demo.is_allowed_user e = true.
Proof.
  unfold Demo.get_gmail_service. run_script.
  destruct (run_local_server (Demo.gmail env)); cbn; [done|].
  destruct (get_profile (Demo.gmail env)) as [|email]; cbn; [done|].
  destruct (Demo.is_allowed_user email) eqn:Hgate; cbn; [|done].
  split; [done|]. by intros svc e [= _ <-].
Qed.

Lemma gate_holds_signed_out (s : Demo.Session) :
  gate_holds (Demo.set_user_email None s).
Proof. by intros e. Qed.

Lemma demo_auth_keeps_gate (inp : Demo.Inputs) (env : Demo.Env) :
  keeps gate_holds (Demo.auth_ui inp env).
Proof.
  unfold Demo.auth_ui.
  apply keeps_bind; [apply keeps_session_state|intros s].
  destruct (negb _); [|eauto 20 using gate_holds_signed_out with keeps].
  apply keeps_bind; [apply keeps_button|intros b].
  apply keeps_when. intros r Hgate.
  destruct (demo_get_gmail_service_allowed env r) as [Hsession Hallowed].
  revert Hsession Hallowed. unfold try_except. run_script.
  destruct (Demo.get_gmail_service env r) as [r' [[svc e]| |]]; cbn.
  - intros _ Hallowed e' [= <-]. by apply (Hallowed svc).
  - by intros ->.
  - by intros ->.
Qed.

Lemma demo_script_keeps_gate (inp : Demo.Inputs) (env : Demo.Env) :
  keeps gate_holds (Demo.script inp env).
Proof.
  unfold Demo.script.
  eauto using demo_auth_keeps_gate, demo_generation_keeps_gate,
    demo_approval_keeps_gate with keeps.
Qed.

Lemma reachable_gate_holds (s : Demo.Session) : reachable s → gate_holds s.
Proof.
  induction 1 as [|inp env s fs _ IH]; [by intros e|].
  by apply (demo_script_keeps_gate inp env (fresh s fs)).
Qed.


(** ** Approval: Cancel and Send (C9, C5) *)

(** C9. [Cancel] from Authenticated+PendingApproval sets the five
    pending-draft fields to [None], keeps [user_service] and [user_email],
    touches no file and issues no call at all; the state is Authenticated
    afterwards ([without_pending] changes the five fields only). *)
Theorem cancel_discards_pending (inp : Demo.Inputs) (env : Demo.Env)
    (s : Demo.Session) (svc : Service) (body : string) (tos : list string)
    (fs : gmap string string) :
  Demo.clicked inp = Some Cancel →
  Demo.user_service s = Some svc →
  Demo.generated_email s = Some body →
  Py.truthy_str body = true →
  Demo.generated_to s = Some tos →
  demo_state s = PendingApproval
  ∧ Demo.script inp env (fresh s fs)
    = (mkRun (without_pending s) fs []
         (signed_in_page s
          ++ [Shown Cancel; UiWarning "Email cancelled"; Shown SendEmail]),
       Value tt)
  ∧ demo_state (session (Demo.script inp env (fresh s fs)).1) = Authenticated.
Proof.
  intros Hc Hsvc Hbody Htruthy Hto.
  assert (Demo.script inp env (fresh s fs)
          = (mkRun (without_pending s) fs []
               (signed_in_page s
                ++ [Shown Cancel; UiWarning "Email cancelled";
                    Shown SendEmail]),
             Value tt)) as Hrun.
  { destruct s, inp, body; cbn in *; subst; [done|].
    unfold Demo.script, Demo.auth_ui, Demo.generation_ui, Demo.approval_ui,
      Demo.reset_fields.
    run_script. buttons. reflexivity. }
  split; [|split; [exact Hrun|]].
  - unfold demo_state. rewrite Hsvc, Hbody. cbn. by rewrite Htruthy.
  - rewrite Hrun. unfold demo_state. cbn. by rewrite Hsvc.
Qed.

Lemma cancel_discards_pending_witness :
  Demo.script (Sample.demo_click Cancel "" "")
    (Sample.demo_env "alice@iands.com")
    (fresh (Sample.demo_pending "alice@iands.com") ∅)
  = (mkRun (Sample.demo_session "alice@iands.com") ∅ []
       [UiInfo ("Logged in as " +:+ "alice@iands.com");
        Shown Logout; Shown Generate; Shown Cancel;
        UiWarning "Email cancelled"; Shown SendEmail],
     Value tt).
Proof.
  apply (cancel_discards_pending (Sample.demo_click Cancel "" "")
           (Sample.demo_env "alice@iands.com")
           (Sample.demo_pending "alice@iands.com") Sample.svc
           "Dear team, ..." ["a@x.com"; "b@y.com"] ∅);
    vm_compute; reflexivity.
Defined.

(** The run of a click on [Send Email] with a draft pending, by what the
    email library and the Gmail side answer. *)
Lemma demo_send_run (inp : Demo.Inputs) (env : Demo.Env)
    (s : Demo.Session) (svc : Service) (body : string) (tos : list string)
    (fs : gmap string string) :
  Demo.clicked inp = Some SendEmail →
  Demo.user_service s = Some svc →
  Demo.generated_email s = Some body →
  Py.truthy_str body = true →
  Demo.generated_to s = Some tos →
  Demo.script inp env (fresh s fs)
  = match Demo.as_bytes env (pending_message s body tos) with
    | inl e =>
        (mkRun s fs [] (signed_in_page s ++ [Shown Cancel; Shown SendEmail]),
         Raised e)
    | inr _ =>
        match messages_send (Demo.gmail env) with
        | inl e =>
            (mkRun s fs [MessagesSend svc (pending_message s body tos)]
               (signed_in_page s ++ [Shown Cancel; Shown SendEmail]),
             Raised e)
        | inr _ =>
            match Demo.draft_id s with
            | Some (String c id) =>
                match drafts_delete (Demo.gmail env) with
                | inl e =>
                    (mkRun s fs
                       [MessagesSend svc (pending_message s body tos);
                        DraftsDelete svc (String c id)]
                       (signed_in_page s ++ [Shown Cancel; Shown SendEmail]),
                     Raised e)
                | inr _ =>
                    (mkRun (without_pending s) fs
                       [MessagesSend svc (pending_message s body tos);
                        DraftsDelete svc (String c id)]
                       (signed_in_page s
                        ++ [Shown Cancel; Shown SendEmail;
                            UiSuccess "Email sent successfully!"]),
                     Value tt)
                end
            | _ =>
                (mkRun (without_pending s) fs
                   [MessagesSend svc (pending_message s body tos)]
                   (signed_in_page s
                    ++ [Shown Cancel; Shown SendEmail;
                        UiSuccess "Email sent successfully!"]),
                 Value tt)
            end
        end
    end.
Proof.
  intros Hc Hsvc Hbody Htruthy Hto.
  destruct s as [sv em ge gs gt gc di], inp,
    env as [[rl gp dc ms dd] ? ser]; cbn in *; subst.
  unfold Demo.script, Demo.auth_ui, Demo.generation_ui, Demo.approval_ui,
    Demo.send_gmail_message, Demo.build_message, Demo.reset_fields,
    pending_message, without_pending, signed_in_page.
  run_script. buttons. rewrite Htruthy. buttons.
  destruct (ser _) as [e|[]]; cbn; [done|].
  destruct ms as [e|[]]; cbn; [done|].
  destruct di as [[|c id]|]; cbn; try done.
  by destruct dd as [e|[]].
Qed.

(** C5, as the code has it. [Send Email] from Authenticated+PendingApproval
    with a non-empty draft id, when the message serializes and the send
    call succeeds, issues exactly one send call and then exactly one delete
    call. If the delete call succeeds, the success message is shown and the
    pending draft is cleared: the state is Authenticated. If the delete
    call raises, the exception ends the run uncaught: the session keeps its
    pending draft, and the success message is not shown. *)
Theorem send_then_delete (inp : Demo.Inputs) (env : Demo.Env)
    (s : Demo.Session) (svc : Service) (body : string) (tos : list string)
    (id : string) (fs : gmap string string) :
  Demo.clicked inp = Some SendEmail →
  Demo.user_service s = Some svc →
  Demo.generated_email s = Some body →
  Py.truthy_str body = true →
  Demo.generated_to s = Some tos →
  Demo.draft_id s = Some id →
  Py.truthy_str id = true →
  Demo.as_bytes env (pending_message s body tos) = inr tt →
  messages_send (Demo.gmail env) = inr tt →
  demo_state s = PendingApproval
  ∧ (drafts_delete (Demo.gmail env) = inr tt →
     Demo.script inp env (fresh s fs)
     = (mkRun (without_pending s) fs
          [MessagesSend svc (pending_message s body tos); DraftsDelete svc id]
          (signed_in_page s
           ++ [Shown Cancel; Shown SendEmail;
               UiSuccess "Email sent successfully!"]),
        Value tt)
     ∧ demo_state (without_pending s) = Authenticated)
  ∧ (∀ e, drafts_delete (Demo.gmail env) = inl e →
     Demo.script inp env (fresh s fs)
     = (mkRun s fs
          [MessagesSend svc (pending_message s body tos); DraftsDelete svc id]
          (signed_in_page s ++ [Shown Cancel; Shown SendEmail]),
        Raised e)).
Proof.
  intros Hc Hsvc Hbody Htruthy Hto Hid Hidt Hser Hsend.
  rewrite (demo_send_run inp env s svc body tos fs Hc Hsvc Hbody Htruthy Hto).
  rewrite Hser, Hsend, Hid. destruct id as [|c id]; [done|].
  split; [|split].
  - unfold demo_state. rewrite Hsvc, Hbody. cbn. by rewrite Htruthy.
  - intros ->. split; [done|]. unfold demo_state. cbn. by rewrite Hsvc.
  - by intros e ->.
Qed.

Lemma send_then_delete_witness :
  Demo.script (Sample.demo_click SendEmail "" "")
    (Sample.demo_env "alice@iands.com")
    (fresh (Sample.demo_pending "alice@iands.com") ∅)
  = (mkRun (Sample.demo_session "alice@iands.com") ∅
       [MessagesSend Sample.svc
          {| msg_subtype := "html"; msg_body := "Dear team, ...";
             msg_to := "a@x.com, b@y.com"; msg_subject := Some "Invoice";
             msg_cc := None |};
        DraftsDelete Sample.svc "r-1"]
       [UiInfo "Logged in as alice@iands.com"; Shown Logout; Shown Generate;
        Shown Cancel; Shown SendEmail; UiSuccess "Email sent successfully!"],
     Value tt).
Proof.
  apply (send_then_delete (Sample.demo_click SendEmail "" "")
           (Sample.demo_env "alice@iands.com")
           (Sample.demo_pending "alice@iands.com") Sample.svc
           "Dear team, ..." ["a@x.com"; "b@y.com"] "r-1" ∅);
    vm_compute; reflexivity.
Defined.

(** C5, as the claim states it, fails: when the delete call fails after the
    send call succeeded, the pending draft is not cleared (the state stays
    Authenticated+PendingApproval) and the run ends on the delete's
    exception instead of the success message. *)
Lemma delete_failure_keeps_pending :
  Demo.script (Sample.demo_click SendEmail "" "")
    (Sample.demo_env_delete_fails "alice@iands.com")
    (fresh (Sample.demo_pending "alice@iands.com") ∅)
  = (mkRun (Sample.demo_pending "alice@iands.com") ∅
       [MessagesSend Sample.svc
          {| msg_subtype := "html"; msg_body := "Dear team, ...";
             msg_to := "a@x.com, b@y.com"; msg_subject := Some "Invoice";
             msg_cc := None |};
        DraftsDelete Sample.svc "r-1"]
       [UiInfo "Logged in as alice@iands.com"; Shown Logout; Shown Generate;
        Shown Cancel; Shown SendEmail],
     Raised (CollaboratorError "HttpError 404"))
  ∧ demo_state (Sample.demo_pending "alice@iands.com") = PendingApproval
  ∧ Demo.draft_id (Sample.demo_pending "alice@iands.com") = Some "r-1".
Proof. vm_compute. repeat split; reflexivity. Qed.

(** ** Recipients: [strip] and [parse_emails] *)

Lemma lstrip_starts (s : string) :
  match Py.lstrip s with
  | EmptyString => True
  | String c _ => Py.isspace c = false
  end.
Proof.
  induction s as [|c s IH]; simpl; [done|].
  destruct (Py.isspace c) eqn:Hc; [exact IH|exact Hc].
Qed.

Lemma rstrip_idem (s : string) : Py.rstrip (Py.rstrip s) = Py.rstrip s.
Proof.
  induction s as [|c s IH]; simpl; [done|].
  destruct (Py.rstrip s) as [|c' r] eqn:Hr.
  - destruct (Py.isspace c) eqn:Hc; simpl; [done|]. by rewrite Hc.
  - simpl. simpl in IH. by rewrite IH.
Qed.

Lemma rstrip_keeps_head (c : ascii) (s : string) :
  Py.isspace c = false → ∃ r, Py.rstrip (String c s) = String c r.
Proof.
  intros Hc. simpl. rewrite Hc. destruct (Py.rstrip s); eauto.
Qed.

(** A stripped string is not changed by [strip]. *)
Lemma strip_idem (s : string) : Py.strip (Py.strip s) = Py.strip s.
Proof.
  unfold Py.strip. pose proof (lstrip_starts s) as Hhead.
  destruct (Py.lstrip s) as [|c t]; [done|].
  destruct (rstrip_keeps_head c t Hhead) as [r Hr].
  rewrite Hr. cbn [Py.lstrip]. rewrite Hhead, <- Hr. apply rstrip_idem.
Qed.

(** What [parse_emails] answers: every entry is non-empty and stripped. *)
Lemma parse_emails_entries (input : string) :
  Forall (λ a, Py.truthy_str a = true ∧ Py.strip a = a)
    (Demo.parse_emails input).
Proof.
  unfold Demo.parse_emails.
  induction (Py.split comma input) as [|seg segs IH]; simpl; [constructor|].
  destruct (Py.truthy_str (Py.strip seg)) eqn:Hseg; simpl; [|exact IH].
  constructor; [|exact IH]. split; [exact Hseg|apply strip_idem].
Qed.

(** [parse_emails] answers the empty list exactly when every segment
    between commas is blank. *)
Lemma parse_emails_nil (input : string) :
  Demo.parse_emails input = []
  ↔ Forall (λ seg, Py.strip seg = EmptyString) (Py.split comma input).
Proof.
  unfold Demo.parse_emails.
  induction (Py.split comma input) as [|seg segs IH]; simpl.
  - split; [constructor|done].
  - destruct (Py.strip seg) as [|c t] eqn:Hseg; simpl.
    + rewrite IH. split; [by constructor|by inversion 1].
    + split; [done|]. inversion 1; congruence.
Qed.

Example parse_emails_example :
  Demo.parse_emails "a@x.com, b@y.com " = ["a@x.com"; "b@y.com"].
Proof. vm_compute. reflexivity. Qed.

Example parse_emails_blank : Demo.parse_emails " , " = [].
Proof. vm_compute. reflexivity. Qed.

(** ** Generate and create a draft (C7, C8) *)

(** The run of a click on [Generate] by a signed-in session, by what the
    model, the email library and the Gmail side answer. The handler stores
    the answer and the parsed inputs before it drafts. *)
Lemma demo_generate_outcomes (inp : Demo.Inputs) (env : Demo.Env)
    (s : Demo.Session) (svc : Service) (fs : gmap string string) :
  Demo.clicked inp = Some Generate →
  Demo.user_service s = Some svc →
  Demo.script inp env (fresh s fs)
  = match Demo.llm env with
    | inl e =>
        (mkRun s fs [LlmInvoke (Demo.prompt_of (Demo.user_prompt inp))]
           (signed_in_page s),
         Raised e)
    | inr answer =>
        match Demo.as_bytes env (drafted_message answer inp) with
        | inl e =>
            (mkRun (with_generated s answer inp (Demo.draft_id s)) fs
               [LlmInvoke (Demo.prompt_of (Demo.user_prompt inp))]
               (signed_in_page s),
             Raised e)
        | inr _ =>
            match drafts_create (Demo.gmail env) with
            | inl e =>
                (mkRun (with_generated s answer inp (Demo.draft_id s)) fs
                   [LlmInvoke (Demo.prompt_of (Demo.user_prompt inp));
                    DraftsCreate svc (drafted_message answer inp)]
                   (signed_in_page s),
                 Raised e)
            | inr oid =>
                (mkRun (with_generated s answer inp oid) fs
                   [LlmInvoke (Demo.prompt_of (Demo.user_prompt inp));
                    DraftsCreate svc (drafted_message answer inp)]
                   (signed_in_page s
                    ++ UiSuccess "Draft created. Please review below."
                    :: (if Py.truthy_str (Demo.gmail_content answer)
                        then [Shown Cancel; Shown SendEmail] else [])),
                 Value tt)
            end
        end
    end.
Proof.
  intros Hc Hsvc.
  destruct s as [sv em ge gs gt gc di], inp as [click prompt to cc],
    env as [[rl gp dc ms dd] llm ser]; cbn in *; subst.
  unfold Demo.script, Demo.auth_ui, Demo.generation_ui, Demo.approval_ui,
    Demo.create_gmail_draft, Demo.workflow_invoke, Demo.build_message,
    with_generated, drafted_message, signed_in_page.
  run_script. buttons.
  destruct llm as [e|[content subject]]; cbn; [done|].
  destruct (Py.truthy_str cc); cbn;
    [destruct (Demo.parse_emails cc); cbn|];
    (destruct (ser _) as [e|[]]; cbn; [done|]);
    (destruct dc as [e|oid]; cbn; [done|]);
    destruct content; cbn; buttons; reflexivity.
Qed.

(** The run of a click on [Generate] by a signed-in session, when the model
    answers, the message serializes and the draft is created. Every
    pending-draft field is overwritten; the approval section follows in the
    same run when the generated content is not empty. *)
Lemma demo_generate_run (inp : Demo.Inputs) (env : Demo.Env)
    (s : Demo.Session) (svc : Service) (answer : Demo.StructuredEmail)
    (oid : option string) (fs : gmap string string) :
  Demo.clicked inp = Some Generate →
  Demo.user_service s = Some svc →
  Demo.llm env = inr answer →
  Demo.as_bytes env (drafted_message answer inp) = inr tt →
  drafts_create (Demo.gmail env) = inr oid →
  Demo.script inp env (fresh s fs)
  = (mkRun
       {| Demo.user_service := Some svc;
          Demo.user_email := Demo.user_email s;
          Demo.generated_email := Some (Demo.gmail_content answer);
          Demo.generated_subject := Some (Demo.gmail_subject answer);
          Demo.generated_to := Some (Demo.parse_emails (Demo.to_email inp));
          Demo.generated_cc :=
            if Py.truthy_str (Demo.cc_email inp)
            then Some (Demo.parse_emails (Demo.cc_email inp)) else None;
          Demo.draft_id := oid |}
       fs
       [LlmInvoke (Demo.prompt_of (Demo.user_prompt inp));
        DraftsCreate svc (drafted_message answer inp)]
       (signed_in_page s
        ++ UiSuccess "Draft created. Please review below."
        :: (if Py.truthy_str (Demo.gmail_content answer)
            then [Shown Cancel; Shown SendEmail] else [])),
     Value tt).
Proof.
  intros Hc Hsvc Hllm Hser Hcreate.
  rewrite (demo_generate_outcomes inp env s svc fs Hc Hsvc).
  rewrite Hllm, Hser, Hcreate. unfold with_generated. by rewrite Hsvc.
Qed.

(** C7, as the code has it. In the approval variant, a click on [Generate]
    by a signed-in session with the recipients input [a@x.com, b@y.com ],
    when the model answers, the message serializes and the draft is created
    with an id, stores the recipients [a@x.com] and [b@y.com], issues
    exactly one draft-create call (after the one call to the model), and
    stores the generated content, the subject and the draft id. [generated_cc] holds the parsed
    CC list when the CC input is not empty, and [None] when it is empty.
    With a non-empty generated content the state is
    Authenticated+PendingApproval. *)
Theorem generate_draft_pending (inp : Demo.Inputs) (env : Demo.Env)
    (s : Demo.Session) (svc : Service) (answer : Demo.StructuredEmail)
    (id : string) (fs : gmap string string) :
  Demo.clicked inp = Some Generate →
  Demo.to_email inp = "a@x.com, b@y.com " →
  Demo.user_service s = Some svc →
  Demo.llm env = inr answer →
  Demo.as_bytes env (drafted_message answer inp) = inr tt →
  drafts_create (Demo.gmail env) = inr (Some id) →
  (Demo.script inp env (fresh s fs)).2 = Value tt
  ∧ session (Demo.script inp env (fresh s fs)).1
    = {| Demo.user_service := Some svc;
         Demo.user_email := Demo.user_email s;
         Demo.generated_email := Some (Demo.gmail_content answer);
         Demo.generated_subject := Some (Demo.gmail_subject answer);
         Demo.generated_to := Some ["a@x.com"; "b@y.com"];
         Demo.generated_cc :=
           if Py.truthy_str (Demo.cc_email inp)
           then Some (Demo.parse_emails (Demo.cc_email inp)) else None;
         Demo.draft_id := Some id |}
  ∧ (∃ msg, calls (Demo.script inp env (fresh s fs)).1
            = [LlmInvoke (Demo.prompt_of (Demo.user_prompt inp));
               DraftsCreate svc msg]
            ∧ msg_to msg = "a@x.com, b@y.com")
  ∧ files (Demo.script inp env (fresh s fs)).1 = fs
  ∧ (Py.truthy_str (Demo.gmail_content answer) = true →
     demo_state (session (Demo.script inp env (fresh s fs)).1)
     = PendingApproval).
Proof.
  intros Hc Hto Hsvc Hllm Hser Hcreate.
  rewrite (demo_generate_run inp env s svc answer (Some id) fs
             Hc Hsvc Hllm Hser Hcreate).
  unfold drafted_message. rewrite Hto, parse_emails_example. cbn.
  repeat split; [eauto|].
  intros Hcontent. unfold demo_state. cbn. by rewrite Hcontent.
Qed.

Lemma generate_draft_pending_witness :
  session (Demo.script
             (Sample.demo_click Generate "a@x.com, b@y.com " "c@z.com")
             (Sample.demo_env "alice@iands.com")
             (fresh (Sample.demo_session "alice@iands.com") ∅)).1
  = {| Demo.user_service := Some Sample.svc;
       Demo.user_email := Some "alice@iands.com";
       Demo.generated_email := Some "Dear team, ...";
       Demo.generated_subject := Some "Invoice";
       Demo.generated_to := Some ["a@x.com"; "b@y.com"];
       Demo.generated_cc := Some ["c@z.com"];
       Demo.draft_id := Some "r-1" |}.
Proof.
  apply (generate_draft_pending
           (Sample.demo_click Generate "a@x.com, b@y.com " "c@z.com")
           (Sample.demo_env "alice@iands.com")
           (Sample.demo_session "alice@iands.com") Sample.svc Sample.answer
           "r-1" ∅);
    vm_compute; reflexivity.
Defined.

(** C7, as the claim states it, fails: with the CC input left empty, a
    successful run ends with [generated_cc] still [None], the other four
    fields being set. *)
Lemma generate_without_cc :
  Demo.script (Sample.demo_click Generate "a@x.com, b@y.com " "")
    (Sample.demo_env "alice@iands.com")
    (fresh (Sample.demo_session "alice@iands.com") ∅)
  = (mkRun
       {| Demo.user_service := Some Sample.svc;
          Demo.user_email := Some "alice@iands.com";
          Demo.generated_email := Some "Dear team, ...";
          Demo.generated_subject := Some "Invoice";
          Demo.generated_to := Some ["a@x.com"; "b@y.com"];
          Demo.generated_cc := None;
          Demo.draft_id := Some "r-1" |}
       ∅
       [LlmInvoke (Demo.prompt_of "Follow up on invoice #123");
        DraftsCreate Sample.svc
          {| msg_subtype := "html"; msg_body := "Dear team, ...";
             msg_to := "a@x.com, b@y.com"; msg_subject := Some "Invoice";
             msg_cc := None |}]
       [UiInfo "Logged in as alice@iands.com"; Shown Logout; Shown Generate;
        UiSuccess "Draft created. Please review below.";
        Shown Cancel; Shown SendEmail],
     Value tt).
Proof. vm_compute. reflexivity. Qed.




(** * Further properties of the scripts *)

(** ** Authentication: the other outcomes *)

Lemma basic_get_gmail_service_allowed (env : Basic.Env) (r : Run Basic.Session)
    (creds : Creds) (email : string) :
  run_local_server (Basic.gmail env) = inr creds →
  get_profile (Basic.gmail env) = inr email →
  Basic.is_allowed_user email = true →
  Basic.get_gmail_service env r
  = (mkRun (session r) (<[Basic.token_path email := creds]> (files r))
       ((calls r ++ [OAuthFlow]) ++ [GetProfile]) (ui r),
     Value ({| credentials := creds |}, email)).
Proof.
  intros Hflow Hprofile Hgate. unfold Basic.get_gmail_service. run_script.
  rewrite Hflow, Hprofile. cbn. rewrite Hgate. reflexivity.
Qed.

Lemma demo_get_gmail_service_allowed_run (env : Demo.Env)
    (r : Run Demo.Session) (creds : Creds) (email : string) :
  run_local_server (Demo.gmail env) = inr creds →
  get_profile (Demo.gmail env) = inr email →
  Demo.is_allowed_user email = true →
  Demo.get_gmail_service env r
  = (mkRun (session r) (<[Demo.token_path email := creds]> (files r))
       ((calls r ++ [OAuthFlow]) ++ [GetProfile]) (ui r),
     Value ({| credentials := creds |}, email)).
Proof.
  intros Hflow Hprofile Hgate. unfold Demo.get_gmail_service. run_script.
  rewrite Hflow, Hprofile. cbn. rewrite Hgate. reflexivity.
Qed.

(** X1. A click on [Authenticate] in state Anonymous, answered with an
    address that passes the allow-list check, signs the session in with
    the service built on the credentials and with that address, writes the
    credentials to the token file of the address (over what was there), and
    draws the generation section in the same run; in both variants. *)
Theorem authenticate_allowed_signs_in (creds : Creds) (email : string)
    (binp : Basic.Inputs) (benv : Basic.Env)
    (dinp : Demo.Inputs) (denv : Demo.Env) (fs : gmap string string) :
  run_local_server (Basic.gmail benv) = inr creds →
  get_profile (Basic.gmail benv) = inr email →
  run_local_server (Demo.gmail denv) = inr creds →
  get_profile (Demo.gmail denv) = inr email →
  Basic.is_allowed_user email = true →
  Basic.clicked binp = Some Authenticate →
  Demo.clicked dinp = Some Authenticate →
  Basic.script binp benv (fresh Basic.initial fs)
  = (mkRun {| Basic.user_service := Some {| credentials := creds |};
              Basic.user_email := Some email |}
       (<[Basic.token_path email := creds]> fs)
       [OAuthFlow; GetProfile]
       [Shown Authenticate; UiSuccess ("Authenticated as " +:+ email);
        Shown Generate],
     Value tt)
  ∧ Demo.script dinp denv (fresh Demo.initial fs)
    = (mkRun (Demo.set_user_email (Some email)
                (Demo.set_user_service (Some {| credentials := creds |})
                   Demo.initial))
         (<[Demo.token_path email := creds]> fs)
         [OAuthFlow; GetProfile]
         [Shown Authenticate; UiSuccess ("Logged in as " +:+ email);
          Shown Generate],
       Value tt)
  ∧ <[Basic.token_path email := creds]> fs !! Basic.token_path email
    = Some creds.
Proof.
  intros Hb1 Hb2 Hd1 Hd2 Hgate Hbc Hdc.
  split; [|split; [|apply lookup_insert_eq]].
  - unfold Basic.script, Basic.auth_ui, Basic.hard_block, Basic.generation_ui.
    run_script. rewrite Hbc. buttons.
    rewrite (basic_get_gmail_service_allowed benv _ creds email Hb1 Hb2 Hgate).
    cbn. rewrite Hgate, andb_false_r. buttons. reflexivity.
  - unfold Demo.script, Demo.auth_ui, Demo.generation_ui, Demo.approval_ui.
    run_script. rewrite Hdc. buttons.
    rewrite (demo_get_gmail_service_allowed_run denv _ creds email
               Hd1 Hd2 Hgate).
    cbn. buttons. reflexivity.
Qed.

Lemma authenticate_allowed_signs_in_witness :
  Basic.script (Sample.basic_click Authenticate)
    (Sample.basic_env "alice@iands.com") (fresh Basic.initial ∅)
  = (mkRun (Sample.basic_session "alice@iands.com")
       (<[Basic.token_path "alice@iands.com" := Sample.token]> ∅)
       [OAuthFlow; GetProfile]
       [Shown Authenticate;
        UiSuccess ("Authenticated as " +:+ "alice@iands.com");
        Shown Generate],
     Value tt).
Proof.
  apply (authenticate_allowed_signs_in Sample.token "alice@iands.com"
           (Sample.basic_click Authenticate)
           (Sample.basic_env "alice@iands.com")
           (Sample.demo_click Authenticate "" "")
           (Sample.demo_env "alice@iands.com") ∅);
    vm_compute; reflexivity.
Defined.

(** X2. When the OAuth flow or the profile call raises, a click on
    [Authenticate] shows the exception's text as an error and changes
    nothing: the session stays Anonymous, no token file is written, and the
    run goes on to its end; in both variants. *)
Theorem authenticate_failure_is_shown (g : Gmail) (e : Exn)
    (bllm : Exn + string) (dllm : Exn + Demo.StructuredEmail)
    (bser dser : Message → Exn + unit)
    (binp : Basic.Inputs) (dinp : Demo.Inputs) (fs : gmap string string) :
  run_local_server g = inl e
  ∨ (∃ creds, run_local_server g = inr creds ∧ get_profile g = inl e) →
  Basic.clicked binp = Some Authenticate →
  Demo.clicked dinp = Some Authenticate →
  Basic.script binp
    {| Basic.gmail := g; Basic.llm := bllm; Basic.as_bytes := bser |}
    (fresh Basic.initial fs)
  = (mkRun Basic.initial fs
       (match run_local_server g with
        | inl _ => [OAuthFlow]
        | inr _ => [OAuthFlow; GetProfile]
        end)
       [Shown Authenticate;
        UiError ("Authentication failed: " +:+ str_of e)],
     Value tt)
  ∧ Demo.script dinp
      {| Demo.gmail := g; Demo.llm := dllm; Demo.as_bytes := dser |}
      (fresh Demo.initial fs)
    = (mkRun Demo.initial fs
         (match run_local_server g with
          | inl _ => [OAuthFlow]
          | inr _ => [OAuthFlow; GetProfile]
          end)
         [Shown Authenticate; UiError (str_of e)],
       Value tt).
Proof.
  intros Hfail Hbc Hdc.
  unfold Basic.script, Basic.auth_ui, Basic.hard_block, Basic.generation_ui,
    Basic.get_gmail_service, Demo.script, Demo.auth_ui, Demo.generation_ui,
    Demo.approval_ui, Demo.get_gmail_service.
  run_script. rewrite Hbc, Hdc. buttons.
  destruct Hfail as [-> | (creds & -> & ->)]; cbn; done.
Qed.

Lemma authenticate_failure_is_shown_witness :
  Basic.script (Sample.basic_click Authenticate)
    {| Basic.gmail := Sample.gmail_profile_fails; Basic.llm := inr "";
       Basic.as_bytes := Sample.serializes |}
    (fresh Basic.initial ∅)
  = (mkRun Basic.initial ∅ [OAuthFlow; GetProfile]
       [Shown Authenticate;
        UiError ("Authentication failed: " +:+ "HttpError 503")],
     Value tt).
Proof.
  apply (authenticate_failure_is_shown Sample.gmail_profile_fails
           (CollaboratorError "HttpError 503") (inr "") (inr Sample.answer)
           Sample.serializes Sample.serializes
           (Sample.basic_click Authenticate)
           (Sample.demo_click Authenticate "" "") ∅).
  - right. exists Sample.token. vm_compute. split; reflexivity.
  - vm_compute. reflexivity.
  - vm_compute. reflexivity.
Defined.

(** ** The token file: written, read back, removed *)

Lemma load_gmail_service_run (email : string) (r : Run Basic.Session) :
  Basic.load_gmail_service email r
  = (r, Value ((λ text, {| credentials := text |})
               <$> files r !! Basic.token_path email)).
Proof.
  unfold Basic.load_gmail_service, from_authorized_user_file. run_script.
  unfold Creds. case_bool_decide as Hfile.
  - destruct Hfile as [text Htext]. rewrite Htext. by destruct r.
  - apply eq_None_not_Some in Hfile. rewrite Hfile. by destruct r.
Qed.

(** X3. [load_gmail_service] reads what [get_gmail_service] wrote: after a
    successful authentication as [email] it answers a service on the same
    credentials as the one authentication answered, without a call to any
    collaborator and without a change to the run; after the basic variant's
    [Logout] of that address it answers [None]. *)
Theorem token_file_round_trip (env : Basic.Env) (r : Run Basic.Session)
    (creds : Creds) (email : string) (inp : Basic.Inputs) (svc : Service)
    (fs : gmap string string) :
  run_local_server (Basic.gmail env) = inr creds →
  get_profile (Basic.gmail env) = inr email →
  Basic.is_allowed_user email = true →
  Basic.clicked inp = Some Logout →
  (Basic.get_gmail_service env r).2 = Value ({| credentials := creds |}, email)
  ∧ Basic.load_gmail_service email (Basic.get_gmail_service env r).1
    = ((Basic.get_gmail_service env r).1,
       Value (Some {| credentials := creds |}))
  ∧ (Basic.load_gmail_service email
       (Basic.script inp env
          (fresh {| Basic.user_service := Some svc;
                    Basic.user_email := Some email |} fs)).1).2
    = Value None.
Proof.
  intros Hflow Hprofile Hgate Hc.
  rewrite (basic_get_gmail_service_allowed env r creds email
             Hflow Hprofile Hgate).
  rewrite !load_gmail_service_run.
  rewrite (basic_logout_deletes_token inp env svc email fs Hc). cbn.
  by rewrite lookup_insert_eq, lookup_delete_eq.
Qed.

Lemma token_file_round_trip_witness :
  Basic.load_gmail_service "alice@iands.com"
    (Basic.get_gmail_service (Sample.basic_env "alice@iands.com")
       (fresh Basic.initial ∅)).1
  = ((Basic.get_gmail_service (Sample.basic_env "alice@iands.com")
        (fresh Basic.initial ∅)).1,
     Value (Some Sample.svc)).
Proof.
  apply (token_file_round_trip (Sample.basic_env "alice@iands.com")
           (fresh Basic.initial ∅) Sample.token "alice@iands.com"
           (Sample.basic_click Logout) Sample.svc ∅);
    vm_compute; reflexivity.
Defined.

(** ** The basic variant's generation section *)

(** X4. In the basic variant a click on [Generate] with a blank prompt
    (empty, or white space only) shows a warning and issues no call: neither
    the model nor the Gmail side is reached, and nothing changes. *)
Theorem basic_blank_prompt_is_refused (inp : Basic.Inputs) (env : Basic.Env)
    (svc : Service) (email : string) (fs : gmap string string) :
  Basic.clicked inp = Some Generate →
  Basic.is_allowed_user email = true →
  Py.strip (Basic.user_prompt inp) = EmptyString →
  Basic.script inp env
    (fresh {| Basic.user_service := Some svc;
              Basic.user_email := Some email |} fs)
  = (mkRun {| Basic.user_service := Some svc;
              Basic.user_email := Some email |} fs []
       [UiInfo ("Logged in as: " +:+ email); Shown SwitchAccount;
        Shown Logout; Shown Generate; UiWarning "Please enter a prompt"],
     Value tt).
Proof.
  intros Hc Hgate Hblank.
  unfold Basic.script, Basic.auth_ui, Basic.hard_block, Basic.generation_ui.
  run_script. rewrite Hc. buttons. rewrite Hgate, andb_false_r. buttons.
  rewrite Hblank. reflexivity.
Qed.

Lemma basic_blank_prompt_is_refused_witness :
  Basic.script
    {| Basic.clicked := Some Generate; Basic.user_prompt := "  ";
       Basic.to_email := "a@x.com"; Basic.subject := "Hello" |}
    (Sample.basic_env "alice@iands.com")
    (fresh (Sample.basic_session "alice@iands.com") ∅)
  = (mkRun (Sample.basic_session "alice@iands.com") ∅ []
       [UiInfo ("Logged in as: " +:+ "alice@iands.com");
        Shown SwitchAccount; Shown Logout; Shown Generate;
        UiWarning "Please enter a prompt"],
     Value tt).
Proof.
  apply (basic_blank_prompt_is_refused
           {| Basic.clicked := Some Generate; Basic.user_prompt := "  ";
              Basic.to_email := "a@x.com"; Basic.subject := "Hello" |}
           (Sample.basic_env "alice@iands.com") Sample.svc
           "alice@iands.com" ∅);
    vm_compute; reflexivity.
Defined.

(** X5. In the basic variant a click on [Generate] with a prompt that is
    not blank calls the model once with the prompt as typed and, when the
    model answers and the message serializes, creates one draft: a
    plain-text message with the typed recipient and subject and the model's
    answer as body. A failure of the model, of the serialization or of the
    draft call is caught and shown as an error, and no draft call is made
    after a failed generation or serialization. In every case the run goes
    on to its end and neither the session nor the token directory
    changes. *)
Theorem basic_generate_and_draft (inp : Basic.Inputs) (env : Basic.Env)
    (svc : Service) (email : string) (fs : gmap string string) :
  Basic.clicked inp = Some Generate →
  Basic.is_allowed_user email = true →
  Py.truthy_str (Py.strip (Basic.user_prompt inp)) = true →
  Basic.script inp env
    (fresh {| Basic.user_service := Some svc;
              Basic.user_email := Some email |} fs)
  = (mkRun {| Basic.user_service := Some svc;
              Basic.user_email := Some email |} fs
       (LlmInvoke (Basic.user_prompt inp)
        :: match Basic.llm env with
           | inl _ => []
           | inr body =>
               match Basic.as_bytes env (basic_message inp body) with
               | inl _ => []
               | inr _ => [DraftsCreate svc (basic_message inp body)]
               end
           end)
       [UiInfo ("Logged in as: " +:+ email); Shown SwitchAccount;
        Shown Logout; Shown Generate;
        match Basic.llm env with
        | inl e => UiError ("Error: " +:+ str_of e)
        | inr body =>
            match Basic.as_bytes env (basic_message inp body),
                  drafts_create (Basic.gmail env) with
            | inl e, _ | inr _, inl e => UiError ("Error: " +:+ str_of e)
            | inr _, inr _ => UiSuccess "Gmail draft created successfully!"
            end
        end],
     Value tt).
Proof.
  intros Hc Hgate Hprompt.
  unfold Basic.script, Basic.auth_ui, Basic.hard_block, Basic.generation_ui,
    Basic.workflow_invoke, Basic.create_gmail_draft, basic_message.
  run_script. rewrite Hc. buttons. rewrite Hgate, andb_false_r. buttons.
  rewrite Hprompt. cbn.
  destruct (Basic.llm env); cbn; [done|].
  destruct (Basic.as_bytes env _); cbn; [done|].
  destruct (drafts_create (Basic.gmail env)); done.
Qed.

Lemma basic_generate_and_draft_witness :
  Basic.script (Sample.basic_click Generate)
    (Sample.basic_env "alice@iands.com")
    (fresh (Sample.basic_session "alice@iands.com") ∅)
  = (mkRun (Sample.basic_session "alice@iands.com") ∅
       [LlmInvoke "Follow up on invoice #123";
        DraftsCreate Sample.svc
          {| msg_subtype := "plain"; msg_body := "Dear team, ...";
             msg_to := "customercare@sbi.co.in";
             msg_subject := Some "Regarding Unauthorized Amount Deduction";
             msg_cc := None |}]
       [UiInfo ("Logged in as: " +:+ "alice@iands.com");
        Shown SwitchAccount; Shown Logout; Shown Generate;
        UiSuccess "Gmail draft created successfully!"],
     Value tt).
Proof.
  apply (basic_generate_and_draft (Sample.basic_click Generate)
           (Sample.basic_env "alice@iands.com") Sample.svc
           "alice@iands.com" ∅);
    vm_compute; reflexivity.
Defined.

(** ** The approval variant's generation section: failures *)

(** X6. In the approval variant a failure of the model's call is not
    caught: the run ends on the exception, before anything is stored and
    before any draft is attempted. The session, a draft pending in it
    included, stays as it was. *)
Theorem demo_generation_failure (inp : Demo.Inputs) (env : Demo.Env)
    (s : Demo.Session) (svc : Service) (e : Exn) (fs : gmap string string) :
  Demo.clicked inp = Some Generate →
  Demo.user_service s = Some svc →
  Demo.llm env = inl e →
  Demo.script inp env (fresh s fs)
  = (mkRun s fs [LlmInvoke (Demo.prompt_of (Demo.user_prompt inp))]
       (signed_in_page s),
     Raised e).
Proof.
  intros Hc Hsvc Hllm.
  destruct s, inp as [click prompt to cc], env as [[] ?]; cbn in *; subst.
  unfold Demo.script, Demo.auth_ui, Demo.generation_ui, Demo.workflow_invoke.
  run_script. buttons. reflexivity.
Qed.

Lemma demo_generation_failure_witness :
  Demo.script (Sample.demo_click Generate "a@x.com" "")
    {| Demo.gmail := Sample.gmail_ok "alice@iands.com";
       Demo.llm := inl (CollaboratorError "RateLimitError");
       Demo.as_bytes := Sample.serializes |}
    (fresh (Sample.demo_pending "alice@iands.com") ∅)
  = (mkRun (Sample.demo_pending "alice@iands.com") ∅
       [LlmInvoke (Demo.prompt_of "Follow up on invoice #123")]
       (signed_in_page (Sample.demo_pending "alice@iands.com")),
     Raised (CollaboratorError "RateLimitError")).
Proof.
  apply (demo_generation_failure (Sample.demo_click Generate "a@x.com" "")
           {| Demo.gmail := Sample.gmail_ok "alice@iands.com";
              Demo.llm := inl (CollaboratorError "RateLimitError");
              Demo.as_bytes := Sample.serializes |}
           (Sample.demo_pending "alice@iands.com") Sample.svc
           (CollaboratorError "RateLimitError") ∅);
    vm_compute; reflexivity.
Defined.

(** X7. In the approval variant a failure of the message's serialization
    or of the draft-creation call is not caught either, and it comes after
    the handler stored the generated content, subject and recipients: these
    stay in the session together with the draft id that was there before
    (none, or the id of an older draft). The draft call is issued only if
    the message serialized. With a non-empty content the session is in
    state Authenticated+PendingApproval although no draft was created. *)
Theorem demo_draft_failure_leaves_pending (inp : Demo.Inputs) (env : Demo.Env)
    (s : Demo.Session) (svc : Service) (answer : Demo.StructuredEmail)
    (e : Exn) (fs : gmap string string) :
  Demo.clicked inp = Some Generate →
  Demo.user_service s = Some svc →
  Demo.llm env = inr answer →
  Demo.as_bytes env (drafted_message answer inp) = inl e
  ∨ (Demo.as_bytes env (drafted_message answer inp) = inr tt
     ∧ drafts_create (Demo.gmail env) = inl e) →
  Demo.script inp env (fresh s fs)
  = (mkRun (with_generated s answer inp (Demo.draft_id s)) fs
       (LlmInvoke (Demo.prompt_of (Demo.user_prompt inp))
        :: match Demo.as_bytes env (drafted_message answer inp) with
           | inl _ => []
           | inr _ => [DraftsCreate svc (drafted_message answer inp)]
           end)
       (signed_in_page s),
     Raised e)
  ∧ (Py.truthy_str (Demo.gmail_content answer) = true →
     demo_state (with_generated s answer inp (Demo.draft_id s))
     = PendingApproval).
Proof.
  intros Hc Hsvc Hllm Hfail.
  rewrite (demo_generate_outcomes inp env s svc fs Hc Hsvc), Hllm.
  split.
  - by destruct Hfail as [-> | [-> ->]].
  - intros Hcontent. unfold demo_state, with_generated. cbn.
    by rewrite Hsvc, Hcontent.
Qed.

Lemma demo_draft_failure_leaves_pending_witness :
  Demo.script (Sample.demo_click Generate "a@x.com" "")
    {| Demo.gmail := Sample.gmail_ok "alice@iands.com";
       Demo.llm := inr Sample.answer; Demo.as_bytes := Sample.refuses |}
    (fresh (Sample.demo_session "alice@iands.com") ∅)
  = (mkRun
       (with_generated (Sample.demo_session "alice@iands.com") Sample.answer
          (Sample.demo_click Generate "a@x.com" "") None)
       ∅
       [LlmInvoke (Demo.prompt_of "Follow up on invoice #123")]
       (signed_in_page (Sample.demo_session "alice@iands.com")),
     Raised (CollaboratorError "HeaderWriteError")).
Proof.
  apply (demo_draft_failure_leaves_pending
           (Sample.demo_click Generate "a@x.com" "")
           {| Demo.gmail := Sample.gmail_ok "alice@iands.com";
              Demo.llm := inr Sample.answer;
              Demo.as_bytes := Sample.refuses |}
           (Sample.demo_session "alice@iands.com") Sample.svc Sample.answer
           (CollaboratorError "HeaderWriteError") ∅);
    try (vm_compute; reflexivity).
  left. vm_compute. reflexivity.
Defined.

(** ** Sending: without a draft, and when the send call fails *)

(** X8. [Send Email] with no draft id in the session ([None], or the empty
    string), when the message serializes and the send call succeeds, issues
    the send call and no delete call; the success message is shown and the
    pending draft is cleared. *)
Theorem send_without_draft_id (inp : Demo.Inputs) (env : Demo.Env)
    (s : Demo.Session) (svc : Service) (body : string) (tos : list string)
    (fs : gmap string string) :
  Demo.clicked inp = Some SendEmail →
  Demo.user_service s = Some svc →
  Demo.generated_email s = Some body →
  Py.truthy_str body = true →
  Demo.generated_to s = Some tos →
  Py.truthy_opt Py.truthy_str (Demo.draft_id s) = false →
  Demo.as_bytes env (pending_message s body tos) = inr tt →
  messages_send (Demo.gmail env) = inr tt →
  Demo.script inp env (fresh s fs)
  = (mkRun (without_pending s) fs
       [MessagesSend svc (pending_message s body tos)]
       (signed_in_page s
        ++ [Shown Cancel; Shown SendEmail;
            UiSuccess "Email sent successfully!"]),
     Value tt).
Proof.
  intros Hc Hsvc Hbody Htruthy Hto Hid Hser Hsend.
  rewrite (demo_send_run inp env s svc body tos fs Hc Hsvc Hbody Htruthy Hto).
  rewrite Hser, Hsend.
  by destruct (Demo.draft_id s) as [[|c id]|].
Qed.

Lemma send_without_draft_id_witness :
  Demo.script (Sample.demo_click SendEmail "" "")
    (Sample.demo_env "alice@iands.com")
    (fresh (Demo.set_draft_id None (Sample.demo_pending "alice@iands.com")) ∅)
  = (mkRun (Sample.demo_session "alice@iands.com") ∅
       [MessagesSend Sample.svc
          {| msg_subtype := "html"; msg_body := "Dear team, ...";
             msg_to := "a@x.com, b@y.com"; msg_subject := Some "Invoice";
             msg_cc := None |}]
       [UiInfo "Logged in as alice@iands.com"; Shown Logout; Shown Generate;
        Shown Cancel; Shown SendEmail; UiSuccess "Email sent successfully!"],
     Value tt).
Proof.
  apply (send_without_draft_id (Sample.demo_click SendEmail "" "")
           (Sample.demo_env "alice@iands.com")
           (Demo.set_draft_id None (Sample.demo_pending "alice@iands.com"))
           Sample.svc "Dear team, ..." ["a@x.com"; "b@y.com"] ∅);
    vm_compute; reflexivity.
Defined.

(** X9. When the serialization of the message or the send call itself
    fails, [Send Email] issues no delete call (and the send call only if the
    message serialized), the exception ends the run uncaught, and the
    pending draft stays in the session with its draft id: the approval
    section is there again on the next run. *)
Theorem send_failure_keeps_pending (inp : Demo.Inputs) (env : Demo.Env)
    (s : Demo.Session) (svc : Service) (body : string) (tos : list string)
    (e : Exn) (fs : gmap string string) :
  Demo.clicked inp = Some SendEmail →
  Demo.user_service s = Some svc →
  Demo.generated_email s = Some body →
  Py.truthy_str body = true →
  Demo.generated_to s = Some tos →
  Demo.as_bytes env (pending_message s body tos) = inl e
  ∨ (Demo.as_bytes env (pending_message s body tos) = inr tt
     ∧ messages_send (Demo.gmail env) = inl e) →
  Demo.script inp env (fresh s fs)
  = (mkRun s fs
       match Demo.as_bytes env (pending_message s body tos) with
       | inl _ => []
       | inr _ => [MessagesSend svc (pending_message s body tos)]
       end
       (signed_in_page s ++ [Shown Cancel; Shown SendEmail]),
     Raised e)
  ∧ demo_state s = PendingApproval.
Proof.
  intros Hc Hsvc Hbody Htruthy Hto Hfail.
  rewrite (demo_send_run inp env s svc body tos fs Hc Hsvc Hbody Htruthy Hto).
  split.
  - by destruct Hfail as [-> | [-> ->]].
  - unfold demo_state. rewrite Hsvc, Hbody. cbn. by rewrite Htruthy.
Qed.

Lemma send_failure_keeps_pending_witness :
  Demo.script (Sample.demo_click SendEmail "" "")
    {| Demo.gmail := Sample.gmail_send_fails; Demo.llm := inr Sample.answer;
       Demo.as_bytes := Sample.serializes |}
    (fresh (Sample.demo_pending "alice@iands.com") ∅)
  = (mkRun (Sample.demo_pending "alice@iands.com") ∅
       [MessagesSend Sample.svc
          {| msg_subtype := "html"; msg_body := "Dear team, ...";
             msg_to := "a@x.com, b@y.com"; msg_subject := Some "Invoice";
             msg_cc := None |}]
       [UiInfo "Logged in as alice@iands.com"; Shown Logout; Shown Generate;
        Shown Cancel; Shown SendEmail],
     Raised (CollaboratorError "HttpError 403")).
Proof.
  apply (send_failure_keeps_pending (Sample.demo_click SendEmail "" "")
           {| Demo.gmail := Sample.gmail_send_fails;
              Demo.llm := inr Sample.answer;
              Demo.as_bytes := Sample.serializes |}
           (Sample.demo_pending "alice@iands.com") Sample.svc
           "Dear team, ..." ["a@x.com"; "b@y.com"]
           (CollaboratorError "HttpError 403") ∅);
    try (vm_compute; reflexivity).
  right. vm_compute. split; reflexivity.
Defined.

(** ** Generate, then send *)

(** X10. The two steps compose, when the message serializes and the calls
    succeed: after a run that generated and drafted, a run with a click on
    [Send Email] sends the very message that was drafted (same recipients,
    CC, subject and body) and deletes the draft that was created, and the
    session is back without a pending draft. *)
Theorem generate_then_send (inp1 inp2 : Demo.Inputs) (env : Demo.Env)
    (s : Demo.Session) (svc : Service) (answer : Demo.StructuredEmail)
    (id : string) (fs : gmap string string) :
  Demo.clicked inp1 = Some Generate →
  Demo.clicked inp2 = Some SendEmail →
  Demo.user_service s = Some svc →
  Demo.llm env = inr answer →
  Py.truthy_str (Demo.gmail_content answer) = true →
  Demo.as_bytes env (drafted_message answer inp1) = inr tt →
  drafts_create (Demo.gmail env) = inr (Some id) →
  Py.truthy_str id = true →
  messages_send (Demo.gmail env) = inr tt →
  drafts_delete (Demo.gmail env) = inr tt →
  calls (Demo.script inp1 env (fresh s fs)).1
  = [LlmInvoke (Demo.prompt_of (Demo.user_prompt inp1));
     DraftsCreate svc (drafted_message answer inp1)]
  ∧ Demo.script inp2 env
      (fresh (session (Demo.script inp1 env (fresh s fs)).1)
         (files (Demo.script inp1 env (fresh s fs)).1))
    = (mkRun (without_pending s) fs
         [MessagesSend svc (drafted_message answer inp1);
          DraftsDelete svc id]
         (signed_in_page s
          ++ [Shown Cancel; Shown SendEmail;
              UiSuccess "Email sent successfully!"]),
       Value tt).
Proof.
  intros Hc1 Hc2 Hsvc Hllm Hcontent Hser Hcreate Hid Hsend Hdelete.
  rewrite (demo_generate_run inp1 env s svc answer (Some id) fs
             Hc1 Hsvc Hllm Hser Hcreate).
  split; [reflexivity|]. cbn [fst session files].
  match goal with |- Demo.script _ _ (fresh ?s1 _) = _ => set (s' := s1) end.
  assert (Hmsg : pending_message s' (Demo.gmail_content answer)
                   (Demo.parse_emails (Demo.to_email inp1))
                 = drafted_message answer inp1).
  { unfold pending_message, drafted_message, s'. cbn.
    by destruct (Py.truthy_str (Demo.cc_email inp1)). }
  rewrite (demo_send_run inp2 env s' svc (Demo.gmail_content answer)
             (Demo.parse_emails (Demo.to_email inp1)) fs
             Hc2 eq_refl eq_refl Hcontent eq_refl).
  rewrite Hmsg, Hser, Hsend. cbn [Demo.draft_id s'].
  destruct id as [|c id]; [done|]. rewrite Hdelete.
  unfold without_pending, signed_in_page, s'. cbn. by rewrite Hsvc.
Qed.

Lemma generate_then_send_witness :
  Demo.script (Sample.demo_click SendEmail "" "")
    (Sample.demo_env "alice@iands.com")
    (fresh
       (session (Demo.script (Sample.demo_click Generate "a@x.com" "c@z.com")
                   (Sample.demo_env "alice@iands.com")
                   (fresh (Sample.demo_session "alice@iands.com") ∅)).1)
       (files (Demo.script (Sample.demo_click Generate "a@x.com" "c@z.com")
                 (Sample.demo_env "alice@iands.com")
                 (fresh (Sample.demo_session "alice@iands.com") ∅)).1))
  = (mkRun (Sample.demo_session "alice@iands.com") ∅
       [MessagesSend Sample.svc
          {| msg_subtype := "html"; msg_body := "Dear team, ...";
             msg_to := "a@x.com"; msg_subject := Some "Invoice";
             msg_cc := Some "c@z.com" |};
        DraftsDelete Sample.svc "r-1"]
       [UiInfo "Logged in as alice@iands.com"; Shown Logout; Shown Generate;
        Shown Cancel; Shown SendEmail; UiSuccess "Email sent successfully!"],
     Value tt).
Proof.
  apply (generate_then_send (Sample.demo_click Generate "a@x.com" "c@z.com")
           (Sample.demo_click SendEmail "" "")
           (Sample.demo_env "alice@iands.com")
           (Sample.demo_session "alice@iands.com") Sample.svc Sample.answer
           "r-1" ∅);
    vm_compute; reflexivity.
Defined.

(** ** What a signed-out run can reach *)

Lemma preserves_bind {S A B} (P : Run S → Prop) (m : Script S A)
    (k : A → Script S B) :
  preserves P m → (∀ a, preserves P (k a)) → preserves P (m ≫= k).
Proof.
  intros Hm Hk r HP. specialize (Hm r HP).
  unfold mbind, Script_bind. destruct (m r) as [r' [a| |]]; cbn in *; auto.
  by apply Hk.
Qed.

Lemma demo_auth_quiet (inp : Demo.Inputs) (env : Demo.Env) :
  preserves (demo_quiet inp) (Demo.auth_ui inp env).
Proof.
  intros [s fs cs page] [Hcalls Hor]. unfold demo_quiet in *. cbn in *.
  destruct s as [[svc|] em ge gs gt gc di],
    inp as [[[]|] prompt to cc], env as [[[e1|creds] [e2|email] ? ? ?] ?];
    cbn in *; try (by destruct Hor);
    unfold Demo.auth_ui, Demo.get_gmail_service; run_script; buttons;
    try destruct (Demo.is_allowed_user _); cbn; (split; [auth_calls|auto]).
Qed.

Lemma demo_generation_quiet (inp : Demo.Inputs) (env : Demo.Env) :
  preserves (demo_quiet inp) (Demo.generation_ui inp env).
Proof.
  intros [s fs cs page] [Hcalls Hor]. unfold demo_quiet in *. cbn in *.
  destruct Hor as [Hc | Hsvc].
  - destruct s, inp as [click prompt to cc]; cbn in *; subst.
    unfold Demo.generation_ui. run_script.
    destruct user_service; cbn; buttons; auto.
  - destruct s; cbn in *; subst. unfold Demo.generation_ui. run_script. auto.
Qed.

Lemma demo_approval_quiet (inp : Demo.Inputs) (env : Demo.Env) :
  preserves (demo_quiet inp) (Demo.approval_ui inp env).
Proof.
  intros [s fs cs page] [Hcalls Hor]. unfold demo_quiet in *. cbn in *.
  destruct Hor as [Hc | Hsvc].
  - destruct s as [sv em [[|c body]|] gs [tos|] gc di],
      inp as [click prompt to cc]; cbn in *; subst;
      unfold Demo.approval_ui; run_script; buttons; auto.
  - destruct s as [sv em [[|c body]|] gs [tos|] gc di],
      inp as [[[]|] prompt to cc]; cbn in *; subst;
      unfold Demo.approval_ui, Demo.send_gmail_message, Demo.build_message,
        Demo.reset_fields; run_script; buttons; auto;
      destruct (Demo.as_bytes env _); cbn; auto.
Qed.

Lemma basic_auth_quiet (inp : Basic.Inputs) (env : Basic.Env) :
  preserves (basic_quiet inp) (Basic.auth_ui inp env).
Proof.
  intros [s fs cs page] [Hcalls Hor]. unfold basic_quiet in *. cbn in *.
  destruct s as [[svc|] em],
    inp as [[[]|] prompt to subj], env as [[[e1|creds] [e2|email] ? ? ?] ?];
    cbn in *; try (by destruct Hor);
    unfold Basic.auth_ui, Basic.get_gmail_service; run_script; buttons;
    try destruct (Basic.is_allowed_user _); cbn; (split; [auth_calls|auto]).
Qed.

Lemma basic_hard_block_quiet (inp : Basic.Inputs) :
  preserves (basic_quiet inp) Basic.hard_block.
Proof.
  intros [[sv [e|]] fs cs page] HP;
    unfold basic_quiet, Basic.hard_block in *; run_script;
    [destruct (Py.truthy_str e && negb (Basic.is_allowed_user e))|];
    exact HP.
Qed.

Lemma basic_generation_quiet (inp : Basic.Inputs) (env : Basic.Env) :
  preserves (basic_quiet inp) (Basic.generation_ui inp env).
Proof.
  intros [s fs cs page] [Hcalls Hor]. unfold basic_quiet in *. cbn in *.
  destruct Hor as [Hc | Hsvc].
  - destruct s, inp as [click prompt to subj]; cbn in *; subst.
    unfold Basic.generation_ui. run_script.
    destruct user_service; cbn; buttons; auto.
  - destruct s; cbn in *; subst. unfold Basic.generation_ui. run_script. auto.
Qed.



(** ** The shape of reachable sessions *)

Lemma demo_auth_shape (inp : Demo.Inputs) (env : Demo.Env) :
  preserves (λ r, demo_shape (session r)) (Demo.auth_ui inp env).
Proof.
  intros [s fs cs page] [Hsign Hdraft]. unfold demo_shape in *. cbn in *.
  destruct s as [[svc|] [em|] ge gs gt gc di],
    inp as [[[]|] prompt to cc], env as [[[e1|creds] [e2|email] ? ? ?] ?];
    cbn in *; try done;
    unfold Demo.auth_ui, Demo.get_gmail_service; run_script; buttons;
    try destruct (Demo.is_allowed_user _) eqn:Hgate; cbn; done.
Qed.

Lemma demo_generation_shape (inp : Demo.Inputs) (env : Demo.Env) :
  preserves (λ r, demo_shape (session r)) (Demo.generation_ui inp env).
Proof.
  intros [s fs cs page] [Hsign Hdraft]. unfold demo_shape in *. cbn in *.
  destruct s as [[svc|] [em|] ge gs gt gc di],
    inp as [[[]|] prompt to cc],
    env as [[? ? [e3|oid] ? ?] [e4|[content subject]] ser];
    cbn in *; try done;
    unfold Demo.generation_ui, Demo.workflow_invoke, Demo.create_gmail_draft,
      Demo.build_message; run_script; buttons; eauto;
    destruct (ser _) as [e5|[]]; cbn; eauto.
Qed.

Lemma demo_approval_shape (inp : Demo.Inputs) (env : Demo.Env) :
  preserves (λ r, demo_shape (session r)) (Demo.approval_ui inp env).
Proof.
  intros [s fs cs page] Hshape. revert Hshape.
  unfold demo_shape, Demo.approval_ui, Demo.send_gmail_message,
    Demo.build_message, Demo.reset_fields.
  destruct s as [sv em [[|c body]|] gs [tos|] gc di]; run_script; try done.
  destruct inp as [[[]|] prompt to cc]; buttons; try done.
  - intros [Hsign _]. done.
  - destruct (Demo.as_bytes env _); cbn; [done|].
    destruct sv; cbn; [|done].
    destruct (messages_send (Demo.gmail env)); cbn; [done|].
    destruct di as [[|c' id]|]; cbn; try (by intros [Hsign _]).
    destruct (drafts_delete (Demo.gmail env)); cbn; [done|].
    by intros [Hsign _].
Qed.

(** X12. Every session that runs of the approval script reach from the
    initial one is well formed. It is signed out without an address, or
    signed in with an address that passes the gate. If it holds a generated
    content, it holds recipients and a subject too, so the approval
    section's join of the recipients cannot fail; if it holds none, it
    holds nothing else of a draft, no draft id in particular. *)
Theorem reachable_sessions_are_well_formed (s : Demo.Session) :
  reachable s → demo_shape s.
Proof.
  induction 1 as [|inp env s fs _ IH].
  - by unfold demo_shape.
  - apply (preserves_bind (λ r, demo_shape (session r)) (Demo.auth_ui inp env)
             (λ _, Demo.generation_ui inp env ;; Demo.approval_ui inp env));
      [apply demo_auth_shape| |exact IH].
    intros _. apply preserves_bind; [apply demo_generation_shape|].
    intros _. apply demo_approval_shape.
Qed.

Lemma reachable_sessions_are_well_formed_witness :
  demo_shape
    (session (Demo.script (Sample.demo_click Authenticate "" "")
                (Sample.demo_env "alice@iands.com")
                (fresh Demo.initial ∅)).1).
Proof.
  apply (reachable_sessions_are_well_formed
           (session (Demo.script (Sample.demo_click Authenticate "" "")
                       (Sample.demo_env "alice@iands.com")
                       (fresh Demo.initial ∅)).1)).
  apply reach_run. apply reach_initial.
Defined.

(** ** The gate before generation, variant by variant (C3) *)



(** ** The shape of the basic variant's sessions *)

Lemma basic_auth_shape (inp : Basic.Inputs) (env : Basic.Env) :
  preserves (λ r, basic_shape (session r)) (Basic.auth_ui inp env).
Proof.
  intros [s fs cs page] Hshape. revert Hshape.
  unfold basic_shape, Basic.auth_ui, Basic.get_gmail_service.
  destruct s as [[svc|] [em|]]; run_script; try done.
  - destruct inp as [[[]|] prompt to subj]; buttons; try done.
    case_bool_decide; cbn; done.
  - destruct inp as [[[]|] prompt to subj]; buttons; try done.
    destruct (run_local_server (Basic.gmail env)); cbn; [done|].
    destruct (get_profile (Basic.gmail env)) as [|email]; cbn; [done|].
    by destruct (Basic.is_allowed_user email) eqn:Hgate.
Qed.

(** On a well-formed session the hard block does nothing. *)
Lemma basic_hard_block_passes (r : Run Basic.Session) :
  basic_shape (session r) → Basic.hard_block r = (r, Value tt).
Proof.
  destruct r as [[[svc|] [em|]] fs cs page];
    unfold basic_shape, Basic.hard_block; run_script; try done.
  intros ->. by rewrite andb_false_r.
Qed.

Lemma basic_generation_keeps_session (inp : Basic.Inputs) (env : Basic.Env)
    (r : Run Basic.Session) :
  session (Basic.generation_ui inp env r).1 = session r.
Proof.
  unfold Basic.generation_ui, Basic.workflow_invoke, Basic.create_gmail_draft.
  destruct r as [[[svc|] em] fs cs page]; run_script; [|done].
  destruct inp as [[[]|] prompt to subj]; buttons; try done.
  destruct (Py.truthy_str _); cbn; [|done].
  destruct (Basic.llm env); cbn; [done|].
  destruct (Basic.as_bytes env _); cbn; [done|].
  by destruct (drafts_create (Basic.gmail env)).
Qed.

(** X13. Every session that runs of the basic script reach from the initial
    one is signed out without an address, or signed in with an address that
    passes the gate. On such a session the hard block of lines 136-139
    never halts a run: it is a safeguard for sessions populated otherwise. *)
Theorem basic_reachable_sessions_pass_the_block (s : Basic.Session) :
  basic_reachable s →
  basic_shape s
  ∧ ∀ fs cs page, Basic.hard_block (mkRun s fs cs page)
                  = (mkRun s fs cs page, Value tt).
Proof.
  intros Hreach.
  assert (basic_shape s) as Hshape.
  { induction Hreach as [|inp env s fs _ IH]; [by unfold basic_shape|].
    apply (preserves_bind (λ r, basic_shape (session r))
             (Basic.auth_ui inp env)
             (λ _, Basic.hard_block ;; Basic.generation_ui inp env));
      [apply basic_auth_shape| |exact IH].
    intros _. apply preserves_bind.
    - intros r Hr. by rewrite (basic_hard_block_passes r Hr).
    - intros _ r Hr. by rewrite basic_generation_keeps_session. }
  split; [exact Hshape|].
  intros fs cs page. by apply basic_hard_block_passes.
Qed.

Lemma basic_reachable_sessions_pass_the_block_witness :
  basic_shape
    (session (Basic.script (Sample.basic_click Authenticate)
                (Sample.basic_env "alice@iands.com")
                (fresh Basic.initial ∅)).1).
Proof.
  apply (basic_reachable_sessions_pass_the_block
           (session (Basic.script (Sample.basic_click Authenticate)
                       (Sample.basic_env "alice@iands.com")
                       (fresh Basic.initial ∅)).1)).
  apply basic_reach_run. apply basic_reach_initial.
Defined.

(** ** Recipients: what the review field shows parses back *)

Lemma split_app_sep (sep : ascii) (a rest : string) :
  contains sep a = false →
  Py.split sep (a +:+ String sep rest) = a :: Py.split sep rest.
Proof.
  induction a as [|c a IH]; intros Ha.
  - rewrite app_Empty. cbn. by rewrite Ascii.eqb_refl.
  - cbn in Ha. apply orb_false_elim in Ha as [Hc Ha].
    rewrite app_String. cbn. by rewrite Hc, (IH Ha).
Qed.

Lemma split_join (a : string) (l : list string) :
  Forall (λ x, contains comma x = false) (a :: l) →
  Py.split comma (Py.join ", " (a :: l)) = a :: List.map (String " ") l.
Proof.
  revert a. induction l as [|b l IH]; intros a Hall.
  - apply split_without. by inversion Hall.
  - inversion Hall as [|? ? Ha Hrest]; subst.
    change (Py.join ", " (a :: b :: l))
      with (a +:+ String comma (String " " (Py.join ", " (b :: l)))).
    rewrite (split_app_sep comma a _ Ha).
    cbn [Py.split]. rewrite (IH b Hrest). reflexivity.
Qed.

Lemma strip_after_space (s : string) : Py.strip (String " " s) = Py.strip s.
Proof. reflexivity. Qed.

Lemma contains_lstrip (c : ascii) (s : string) :
  contains c s = false → contains c (Py.lstrip s) = false.
Proof.
  induction s as [|c' s IH]; [done|]. intros Hs. cbn.
  destruct (Py.isspace c'); [|exact Hs].
  cbn in Hs. apply orb_false_elim in Hs as [_ Hs]. by apply IH.
Qed.

Lemma contains_rstrip (c : ascii) (s : string) :
  contains c s = false → contains c (Py.rstrip s) = false.
Proof.
  induction s as [|c' s IH]; [done|]. intros Hs.
  cbn in Hs. apply orb_false_elim in Hs as [Hc Hs]. specialize (IH Hs).
  cbn. destruct (Py.rstrip s) as [|c'' r].
  - destruct (Py.isspace c'); cbn; [done|]. by rewrite Hc.
  - cbn. cbn in IH. by rewrite Hc, IH.
Qed.

Lemma split_segments_without (sep : ascii) (s : string) :
  Forall (λ seg, contains sep seg = false) (Py.split sep s).
Proof.
  induction s as [|c s IH]; cbn; [by repeat constructor|].
  destruct (Ascii.eqb c sep) eqn:Hc; [by constructor|].
  destruct (Py.split sep s) as [|seg segs].
  - repeat constructor. cbn. by rewrite Hc.
  - inversion IH; subst. constructor; [|done]. cbn. by rewrite Hc.
Qed.

Lemma parse_emails_without_comma (input : string) :
  Forall (λ a, contains comma a = false) (Demo.parse_emails input).
Proof.
  unfold Demo.parse_emails.
  pose proof (split_segments_without comma input) as Hsegs.
  induction Hsegs as [|seg segs Hseg _ IH]; cbn; [constructor|].
  destruct (Py.truthy_str (Py.strip seg)); cbn; [|exact IH].
  constructor; [|exact IH]. by apply contains_rstrip, contains_lstrip.
Qed.

Lemma parse_emails_spaced (l : list string) :
  Forall (λ a, Py.truthy_str a = true ∧ Py.strip a = a) l →
  List.map Py.strip
    (List.filter (λ email, Py.truthy_str (Py.strip email))
       (List.map (String " ") l)) = l.
Proof.
  induction 1 as [|a l [Ha Hs] _ IH]; [done|].
  cbn [List.map List.filter]. rewrite strip_after_space, Hs, Ha.
  cbn [List.map]. by rewrite strip_after_space, Hs, IH.
Qed.

(** X14. [parse_emails] undoes the join of the review field: a list of
    non-empty, stripped addresses without commas, joined with a comma and a
    space as the approval section shows it (line 188), parses back to the
    same list. In particular this holds for every list that [parse_emails]
    answers, so parsing what is shown gives what is stored. *)
Theorem parse_emails_join_round_trip :
  (∀ l, Forall (λ a, Py.truthy_str a = true ∧ Py.strip a = a
                     ∧ contains comma a = false) l →
        Demo.parse_emails (Py.join ", " l) = l)
  ∧ (∀ input,
        Demo.parse_emails (Py.join ", " (Demo.parse_emails input))
        = Demo.parse_emails input).
Proof.
  assert (∀ l, Forall (λ a, Py.truthy_str a = true ∧ Py.strip a = a
                           ∧ contains comma a = false) l →
               Demo.parse_emails (Py.join ", " l) = l) as Hround.
  { intros [|a l] Hall; [reflexivity|]. unfold Demo.parse_emails.
    rewrite split_join
      by (eapply Forall_impl; [exact Hall|]; by intros x (_ & _ & Hx)).
    inversion Hall as [|? ? (Ha & Hs & _) Hrest]; subst.
    cbn [List.map List.filter]. rewrite Hs, Ha.
    cbn [List.map]. rewrite Hs. f_equal.
    apply parse_emails_spaced.
    eapply Forall_impl; [exact Hrest|]. by intros x (Hx1 & Hx2 & _). }
  split; [exact Hround|].
  intros input. apply Hround.
  pose proof (parse_emails_entries input) as H1.
  pose proof (parse_emails_without_comma input) as H2.
  induction H1 as [|a l [Ha Hs] _ IH]; [constructor|].
  inversion H2; subst. constructor; auto.
Qed.

(** ** The gate matches the whole domain *)

Lemma lower_app (p d : string) :
  Py.lower (p +:+ d) = Py.lower p +:+ Py.lower d.
Proof.
  induction p as [|c p IH]; [done|].
  rewrite app_String. cbn. by rewrite IH.
Qed.

Lemma contains_app (c : ascii) (p d : string) :
  contains c (p +:+ d) = contains c p || contains c d.
Proof.
  induction p as [|c' p IH]; [done|].
  rewrite app_String. cbn. by rewrite IH, orb_assoc.
Qed.

Lemma length_app (p d : string) :
  String.length (p +:+ d) = (String.length p + String.length d)%nat.
Proof.
  induction p as [|c p IH]; [done|].
  rewrite app_String. cbn. by rewrite IH.
Qed.

Lemma allowed_domain_facts (d : string) :
  d ∈ ALLOWED_DOMAINS →
  contains at_sign d = false ∧ Py.lower d = d
  ∧ (d = "iands.com" ∨ d = "kogo.ai").
Proof.
  unfold ALLOWED_DOMAINS.
  intros [->%elem_of_singleton | ->%elem_of_singleton]%elem_of_union;
    repeat split; auto.
Qed.

(** No allowed domain is a proper suffix of an allowed domain. *)
Lemma allowed_not_proper_suffix (q d : string) :
  q ≠ EmptyString → d ∈ ALLOWED_DOMAINS → q +:+ d ∉ ALLOWED_DOMAINS.
Proof.
  intros Hq Hd Hin.
  apply allowed_domain_facts in Hd as (_ & _ & Hd).
  apply allowed_domain_facts in Hin as (_ & _ & Hin).
  assert (String.length (q +:+ d) ≠ String.length d) as Hlen.
  { rewrite length_app. destruct q; [done|]. cbn. lia. }
  destruct Hd as [-> | ->], Hin as [Hin | Hin];
    try (by rewrite Hin in Hlen).
  - apply (f_equal String.length) in Hin. rewrite length_app in Hin.
    cbn in Hin. lia.
  - destruct q as [|c1 [|c2 [|c3 q]]]; try done.
    apply (f_equal String.length) in Hin. rewrite !app_String in Hin.
    cbn in Hin. rewrite length_app in Hin. cbn in Hin. lia.
Qed.

(** X15. The gate compares the whole domain with the allow-list, not a
    suffix of it: an address whose domain is an allowed domain with
    anything in front ([mail.iands.com], [notkogo.ai]) is rejected, in both
    variants. *)
Theorem gate_rejects_longer_domains (local p d : string) :
  d ∈ ALLOWED_DOMAINS →
  p ≠ EmptyString →
  contains at_sign p = false →
  Basic.is_allowed_user (local +:+ "@" +:+ p +:+ d) = false
  ∧ Demo.is_allowed_user (local +:+ "@" +:+ p +:+ d) = false.
Proof.
  intros Hd Hp Hat.
  assert (Basic.is_allowed_user (local +:+ "@" +:+ p +:+ d) = false) as Hb.
  { rewrite basic_gate_domain.
    change ("@" +:+ p +:+ d) with (String at_sign (p +:+ d)).
    rewrite domain_of_local.
    pose proof (allowed_domain_facts d Hd) as (Hdat & Hdlow & _).
    rewrite domain_of_without by (by rewrite contains_app, Hat, Hdat).
    rewrite lower_app, Hdlow. apply bool_decide_eq_false.
    apply allowed_not_proper_suffix; [|done].
    destruct p; [done|]. done. }
  split; [exact Hb|]. by rewrite demo_gate_basic.
Qed.

Lemma gate_rejects_longer_domains_witness :
  Basic.is_allowed_user ("bob" +:+ "@" +:+ "mail." +:+ "iands.com") = false.
Proof.
  apply (gate_rejects_longer_domains "bob" "mail." "iands.com").
  - unfold ALLOWED_DOMAINS. apply elem_of_union_l, elem_of_singleton.
    reflexivity.
  - discriminate.
  - vm_compute. reflexivity.
Defined.

(** ** Edges of the session handling *)

(** X17. The hard block of the basic variant tests a non-empty address
    only (line 137 starts with the truth value of [user_email]): a signed-in
    session whose address is [None] or empty is let through, and a click on
    [Generate] reaches the model and, when the model answers and the message
    serializes, the draft creation, as for an allowed address. *)
Theorem basic_hard_block_skips_empty_address (inp : Basic.Inputs)
    (env : Basic.Env) (svc : Service) (email : option string)
    (fs : gmap string string) :
  Basic.clicked inp = Some Generate →
  Py.truthy_opt Py.truthy_str email = false →
  Py.truthy_str (Py.strip (Basic.user_prompt inp)) = true →
  (Basic.script inp env
     (fresh {| Basic.user_service := Some svc;
               Basic.user_email := email |} fs)).2 = Value tt
  ∧ calls (Basic.script inp env
             (fresh {| Basic.user_service := Some svc;
                       Basic.user_email := email |} fs)).1
    = LlmInvoke (Basic.user_prompt inp)
      :: match Basic.llm env with
         | inl _ => []
         | inr body =>
             match Basic.as_bytes env (basic_message inp body) with
             | inl _ => []
             | inr _ => [DraftsCreate svc (basic_message inp body)]
             end
         end.
Proof.
  intros Hc Hemail Hprompt.
  unfold Basic.script, Basic.auth_ui, Basic.hard_block, Basic.generation_ui,
    Basic.workflow_invoke, Basic.create_gmail_draft, basic_message.
  run_script. rewrite Hc. buttons.
  destruct email as [[|c email]|]; cbn in *; try done;
    rewrite Hprompt; cbn;
    (destruct (Basic.llm env); cbn; [done|]);
    (destruct (Basic.as_bytes env _); cbn; [done|]);
    by destruct (drafts_create (Basic.gmail env)).
Qed.

Lemma basic_hard_block_skips_empty_address_witness :
  calls (Basic.script (Sample.basic_click Generate)
           (Sample.basic_env "alice@iands.com")
           (fresh {| Basic.user_service := Some Sample.svc;
                     Basic.user_email := None |} ∅)).1
  = [LlmInvoke "Follow up on invoice #123";
     DraftsCreate Sample.svc
       {| msg_subtype := "plain"; msg_body := "Dear team, ...";
          msg_to := "customercare@sbi.co.in";
          msg_subject := Some "Regarding Unauthorized Amount Deduction";
          msg_cc := None |}].
Proof.
  apply (basic_hard_block_skips_empty_address (Sample.basic_click Generate)
           (Sample.basic_env "alice@iands.com") Sample.svc None ∅);
    vm_compute; reflexivity.
Defined.

(** X18. A click on [Generate] while a draft is pending replaces it, when
    the model answers, the message serializes and the draft is created: the
    run ends exactly as from the same session without the pending draft,
    and no delete call is issued, so the draft created before stays on the
    Gmail side with no reference left to it. *)
Theorem regenerate_replaces_pending (inp : Demo.Inputs) (env : Demo.Env)
    (s : Demo.Session) (svc : Service) (answer : Demo.StructuredEmail)
    (oid : option string) (fs : gmap string string) :
  Demo.clicked inp = Some Generate →
  Demo.user_service s = Some svc →
  Demo.llm env = inr answer →
  Demo.as_bytes env (drafted_message answer inp) = inr tt →
  drafts_create (Demo.gmail env) = inr oid →
  Demo.script inp env (fresh s fs)
  = Demo.script inp env (fresh (without_pending s) fs)
  ∧ Forall (λ c, ∀ service id, c ≠ DraftsDelete service id)
      (calls (Demo.script inp env (fresh s fs)).1)
  ∧ Demo.draft_id (session (Demo.script inp env (fresh s fs)).1) = oid.
Proof.
  intros Hc Hsvc Hllm Hser Hcreate.
  rewrite (demo_generate_run inp env s svc answer oid fs
             Hc Hsvc Hllm Hser Hcreate).
  rewrite (demo_generate_run inp env (without_pending s) svc answer oid fs
             Hc Hsvc Hllm Hser Hcreate).
  cbn. repeat split. by repeat constructor.
Qed.

Lemma regenerate_replaces_pending_witness :
  Demo.script (Sample.demo_click Generate "a@x.com" "")
    (Sample.demo_env "alice@iands.com")
    (fresh (Demo.set_draft_id (Some "r-0")
              (Sample.demo_pending "alice@iands.com")) ∅)
  = Demo.script (Sample.demo_click Generate "a@x.com" "")
      (Sample.demo_env "alice@iands.com")
      (fresh (without_pending
                (Demo.set_draft_id (Some "r-0")
                   (Sample.demo_pending "alice@iands.com"))) ∅).
Proof.
  apply (regenerate_replaces_pending (Sample.demo_click Generate "a@x.com" "")
           (Sample.demo_env "alice@iands.com")
           (Demo.set_draft_id (Some "r-0")
              (Sample.demo_pending "alice@iands.com"))
           Sample.svc Sample.answer (Some "r-1") ∅);
    vm_compute; reflexivity.
Defined.

(** X19. In the approval variant a pending draft outlives [Logout]: the
    handler clears [user_service] and [user_email] only. After a later
    [Authenticate], as whatever allowed account, the session is in state
    Authenticated+PendingApproval with the draft generated before, and
    the approval section is drawn for it. *)
Theorem pending_draft_outlives_logout (inp1 inp2 : Demo.Inputs)
    (env1 env2 : Demo.Env) (s : Demo.Session) (svc : Service)
    (body : string) (tos : list string) (creds : Creds) (email : string)
    (fs : gmap string string) :
  Demo.clicked inp1 = Some Logout →
  Demo.clicked inp2 = Some Authenticate →
  Demo.user_service s = Some svc →
  Demo.generated_email s = Some body →
  Py.truthy_str body = true →
  Demo.generated_to s = Some tos →
  run_local_server (Demo.gmail env2) = inr creds →
  get_profile (Demo.gmail env2) = inr email →
  Demo.is_allowed_user email = true →
  Demo.script inp2 env2
    (fresh (session (Demo.script inp1 env1 (fresh s fs)).1) fs)
  = (mkRun (Demo.set_user_email (Some email)
              (Demo.set_user_service (Some {| credentials := creds |}) s))
       (<[Demo.token_path email := creds]> fs)
       [OAuthFlow; GetProfile]
       [Shown Authenticate; UiSuccess ("Logged in as " +:+ email);
        Shown Generate; Shown Cancel; Shown SendEmail],
     Value tt)
  ∧ demo_state (Demo.set_user_email (Some email)
                  (Demo.set_user_service (Some {| credentials := creds |}) s))
    = PendingApproval.
Proof.
  intros Hc1 Hc2 Hsvc Hbody Htruthy Hto Hflow Hprofile Hgate.
  rewrite (demo_logout_keeps_files inp1 env1 s svc fs Hc1 Hsvc).
  cbn [fst session].
  split.
  - unfold Demo.script, Demo.auth_ui, Demo.generation_ui, Demo.approval_ui.
    run_script. rewrite Hc2. buttons.
    rewrite (demo_get_gmail_service_allowed_run env2 _ creds email
               Hflow Hprofile Hgate).
    cbn. rewrite Hbody. cbn. rewrite Htruthy, Hto. buttons.
    by destruct s.
  - unfold demo_state. cbn. by rewrite Hbody; cbn; rewrite Htruthy.
Qed.

Lemma pending_draft_outlives_logout_witness :
  demo_state
    (Demo.set_user_email (Some "bob@kogo.ai")
       (Demo.set_user_service (Some {| credentials := Sample.token |})
          (Sample.demo_pending "alice@iands.com")))
  = PendingApproval.
Proof.
  apply (pending_draft_outlives_logout (Sample.demo_click Logout "" "")
           (Sample.demo_click Authenticate "" "")
           (Sample.demo_env "alice@iands.com") (Sample.demo_env "bob@kogo.ai")
           (Sample.demo_pending "alice@iands.com") Sample.svc
           "Dear team, ..." ["a@x.com"; "b@y.com"] Sample.token
           "bob@kogo.ai" ∅);
    vm_compute; reflexivity.
Defined.

(** ** One token file per address *)

Lemma app_inj_r (s1 s2 t : string) : s1 +:+ t = s2 +:+ t → s1 = s2.
Proof.
  revert s2. induction s1 as [|c s1 IH]; intros [|c' s2] Heq; [done| | |].
  - apply (f_equal String.length) in Heq. rewrite app_Empty, app_String in Heq.
    cbn in Heq. rewrite length_app in Heq. lia.
  - apply (f_equal String.length) in Heq. rewrite app_Empty, app_String in Heq.
    cbn in Heq. rewrite length_app in Heq. lia.
  - rewrite !app_String in Heq. injection Heq as -> Heq. by rewrite (IH s2 Heq).
Qed.

(** The token file's name tells the address. *)
Lemma token_path_inj (e1 e2 : string) :
  Basic.token_path e1 = Basic.token_path e2 → e1 = e2.
Proof.
  unfold Basic.token_path. intros Heq.
  apply (inj (String.app "tokens/token_")) in Heq. by apply app_inj_r in Heq.
Qed.

(** X20. The token directory is changed for the session's own address only.
    A successful [get_gmail_service] writes the token file of the address
    that the profile call answered, and the basic variant's [Logout]
    removes the token file of the session's address; the token file of
    every other address is as it was. *)
Theorem token_of_other_address_untouched (env : Basic.Env)
    (r : Run Basic.Session) (creds : Creds) (email other : string)
    (inp : Basic.Inputs) (svc : Service) (fs : gmap string string) :
  run_local_server (Basic.gmail env) = inr creds →
  get_profile (Basic.gmail env) = inr email →
  Basic.is_allowed_user email = true →
  Basic.clicked inp = Some Logout →
  other ≠ email →
  files (Basic.get_gmail_service env r).1 !! Basic.token_path other
  = files r !! Basic.token_path other
  ∧ files (Basic.script inp env
             (fresh {| Basic.user_service := Some svc;
                       Basic.user_email := Some email |} fs)).1
    !! Basic.token_path other
    = fs !! Basic.token_path other.
Proof.
  intros Hflow Hprofile Hgate Hc Hother.
  assert (Basic.token_path email ≠ Basic.token_path other) as Hpath.
  { intros Heq. by apply token_path_inj in Heq. }
  rewrite (basic_get_gmail_service_allowed env r creds email
             Hflow Hprofile Hgate).
  rewrite (basic_logout_deletes_token inp env svc email fs Hc). cbn.
  by rewrite lookup_insert_ne, lookup_delete_ne.
Qed.

Lemma token_of_other_address_untouched_witness :
  files (Basic.script (Sample.basic_click Logout)
           (Sample.basic_env "alice@iands.com")
           (fresh (Sample.basic_session "alice@iands.com")
              (Sample.tokens_of "bob@kogo.ai"))).1
  !! Basic.token_path "bob@kogo.ai"
  = Sample.tokens_of "bob@kogo.ai" !! Basic.token_path "bob@kogo.ai".
Proof.
  apply (token_of_other_address_untouched
           (Sample.basic_env "alice@iands.com") (fresh Basic.initial ∅)
           Sample.token "alice@iands.com" "bob@kogo.ai"
           (Sample.basic_click Logout) Sample.svc
           (Sample.tokens_of "bob@kogo.ai"));
    try (vm_compute; reflexivity).
  discriminate.
Defined.
